(** * Dataset preparation pipeline of [tools/datasets/corpora.py]

    A shallow embedding of the dataset registry: the [DataDownloader]
    class with its [exists] / [download] / [tokenize] /
    [customdataset_from_text] / [prepare] methods, the registry
    [DATA_DOWNLOADERS] and the entry point [prepare_dataset].

    The Python code talks to the operating system ([os.makedirs],
    [os.system], [os.listdir], [os.path.isdir], [zipfile]).  The operating
    system is an interface here (class [OS]); the program is written in a
    state-and-exception monad over it and every effect it performs is
    appended to a trace, so that statements such as
    - no fetch is issued -
    become statements about the trace.  Strings are [String.string]; the
    [os.path] helpers are the ones of [posixpath]. *)

From Stdlib Require Import String Ascii List ZArith Lia Bool DecimalString.
Import ListNotations.
Local Open Scope string_scope.

(* ================================================================== *)
(** ** Python string helpers *)

(** The double-quote character, used in one error message. *)
Definition dquote : string := String (ascii_of_nat 34) EmptyString.

(** [str(n)] for an integer. *)
Definition str_Z (n : Z) : string := NilZero.string_of_int (Z.to_int n).

(** [s.startswith(pre)] *)
Definition startswith (s pre : string) : bool := String.prefix pre s.

(** [s.endswith(suf)]: some tail of [s] is [suf]. *)
Fixpoint endswith (s suf : string) : bool :=
  String.eqb s suf ||
  match s with
  | EmptyString => false
  | String _ s' => endswith s' suf
  end.

(** [sub in s] for strings. *)
Fixpoint contains (s sub : string) : bool :=
  String.prefix sub s ||
  match s with
  | EmptyString => false
  | String _ s' => contains s' sub
  end.

(** ['/' in s] *)
Fixpoint has_sep (s : string) : bool :=
  match s with
  | EmptyString => false
  | String c s' => Ascii.eqb c "/" || has_sep s'
  end.

(** [s.split('/')[0]]: the part of [s] before its first separator. *)
Fixpoint split0 (s : string) : string :=
  match s with
  | EmptyString => EmptyString
  | String c s' => if Ascii.eqb c "/" then EmptyString else String c (split0 s')
  end.

(** Lower-casing of ASCII text: the letters A..Z are mapped to a..z, every
    other byte is kept.  This is what [str.lower()] does on a string of
    ASCII characters; on other text [str.lower()] follows the Unicode
    tables and is left to the runtime (see [str_lower] below). *)
Definition lower_ascii (c : ascii) : ascii :=
  let n := nat_of_ascii c in
  if (65 <=? n)%nat && (n <=? 90)%nat then ascii_of_nat (n + 32) else c.

Fixpoint lower (s : string) : string :=
  match s with
  | EmptyString => EmptyString
  | String c s' => String (lower_ascii c) (lower s')
  end.

(** Every byte of [s] is an ASCII character. *)
Fixpoint ascii_only (s : string) : bool :=
  match s with
  | EmptyString => true
  | String c s' => (nat_of_ascii c <? 128)%nat && ascii_only s'
  end.

(** [f"{i:0w}"]: decimal, padded with zeros on the left up to width [w]. *)
Definition zfill (w : nat) (s : string) : string :=
  String.concat "" (repeat "0" (w - String.length s)) ++ s.

Definition fmt0 (w : nat) (i : nat) : string := zfill w (str_Z (Z.of_nat i)).

(** [repr] of a string without quotes or escapes in it, and of a list of
    such strings. *)
Definition repr_str (s : string) : string := "'" ++ s ++ "'".

Definition repr_list (l : list string) : string :=
  "[" ++ String.concat ", " (map repr_str l) ++ "]".

(** [str(x)] for a value that may be [None]. *)
Definition str_opt (o : option string) : string :=
  match o with
  | Some s => s
  | None => "None"
  end.

(* ================================================================== *)
(** ** [os.path] (posixpath) *)

(** [os.path.join(a, b)] *)
Definition os_path_join (a b : string) : string :=
  if startswith b "/" then b
  else if String.eqb a "" || endswith a "/" then a ++ b
  else a ++ "/" ++ b.

(** [os.path.join(a, b, c)] *)
Definition os_path_join3 (a b c : string) : string :=
  os_path_join (os_path_join a b) c.

(** [os.path.basename(p)]: what follows the last separator of [p]. *)
Fixpoint os_path_basename (p : string) : string :=
  match p with
  | EmptyString => EmptyString
  | String c rest =>
      if has_sep rest then os_path_basename rest
      else if Ascii.eqb c "/" then rest
      else p
  end.

(* ================================================================== *)
(** ** Exceptions and results *)

(** Python exceptions raised by this module or by the calls it makes. *)
Inductive exn : Type :=
| AssertionError (msg : string)
| Exception (msg : string)
| NotImplementedError (msg : string)
| TypeError (msg : string)
| FileNotFoundError (msg : string).

(** [str(e)] *)
Definition exn_str (e : exn) : string :=
  match e with
  | AssertionError m | Exception m | NotImplementedError m | TypeError m
  | FileNotFoundError m => m
  end.

Inductive result (A : Type) : Type :=
| Ok (a : A)
| Raise (e : exn).
Arguments Ok {A} a.
Arguments Raise {A} e.

(* ================================================================== *)
(** ** The operating system as an interface *)

(** What the program can observe of, and do to, its environment.  [fs] is
    the state of the file system (and of whatever else external processes
    change); the program never inspects it except through the queries
    below.  [os_system] runs an external command: it may change [fs] in any
    way and returns the exit status.  [zip_write] creates an archive, or
    answers with the exception [zipfile.ZipFile] raises when the archive
    cannot be created (a [FileNotFoundError] when the directory of the
    path is missing); nothing is written then.  [os_makedirs] and
    [os_listdir] are total: the program only applies them to the storage
    root and to directories it has just created.  [str_lower] is
    [str.lower()] of the runtime: all that is known of it is what it does
    on ASCII text. *)
Class OS : Type := {
  fs : Type;
  os_environ_get : string -> option string;
  cpu_count : Z;
  os_path_isdir : fs -> string -> bool;
  os_path_isfile : fs -> string -> bool;
  os_listdir : fs -> string -> list string;
  os_makedirs : fs -> string -> fs;
  os_system : fs -> string -> fs * Z;
  zip_write : fs -> string -> list (string * string) -> result fs;
  str_lower : string -> string;
  str_lower_ascii : forall s, ascii_only s = true -> str_lower s = lower s
}.

(** The effects the program performs, in the order it performs them.
    [EvSystem cmd rc]: [os.system(cmd)] returned [rc].
    [EvZip path members]: a [zipfile.ZipFile(path, 'w')] was written with
    one member per pair (file read, name inside the archive). *)
Inductive Event : Type :=
| EvMakedirs (path : string)
| EvSystem (cmd : string) (status : Z)
| EvZip (path : string) (members : list (string * string)).

Section Program.
Context {os : OS}.

Record State : Type := mkState {
  st_fs : fs;
  st_trace : list Event
}.

(** Computations: a state transformer that returns a value or raises. *)
Definition M (A : Type) : Type := State -> result A * State.

Definition ret {A} (a : A) : M A := fun st => (Ok a, st).

Definition raise {A} (e : exn) : M A := fun st => (Raise e, st).

Definition bind {A B} (m : M A) (k : A -> M B) : M B :=
  fun st =>
    match m st with
    | (Ok a, st') => k a st'
    | (Raise e, st') => (Raise e, st')
    end.

(** [try: body / except Exception as e: handler(e)] *)
Definition try_except {A} (body : M A) (handler : exn -> M A) : M A :=
  fun st =>
    match body st with
    | (Ok a, st') => (Ok a, st')
    | (Raise e, st') => handler e st'
    end.

Definition lift {A} (r : result A) : M A := fun st => (r, st).

End Program.

Declare Scope py_scope.
Delimit Scope py_scope with py.
Notation "x <- m ;; k" := (bind m (fun x => k))
  (at level 61, m at next level, right associativity) : py_scope.
Notation "m ;; k" := (bind m (fun _ => k))
  (at level 61, right associativity) : py_scope.
Local Open Scope py_scope.

Section Primitives.
Context {os : OS}.

Definition log (e : Event) (f : fs) (st : State) : State :=
  mkState f (st_trace st ++ [e]).

(** [os.makedirs(path, exist_ok=True)] *)
Definition makedirs (path : string) : M unit :=
  fun st => (Ok tt, log (EvMakedirs path) (os_makedirs (st_fs st) path) st).

(** [os.system(cmd)] *)
Definition system (cmd : string) : M Z :=
  fun st =>
    let '(f, rc) := os_system (st_fs st) cmd in
    (Ok rc, log (EvSystem cmd rc) f st).

(** [os.path.isdir(path)] *)
Definition isdir (path : string) : M bool :=
  fun st => (Ok (os_path_isdir (st_fs st) path), st).

(** [os.path.isfile(path)] *)
Definition isfile (path : string) : M bool :=
  fun st => (Ok (os_path_isfile (st_fs st) path), st).

(** [os.listdir(path)] *)
Definition listdir (path : string) : M (list string) :=
  fun st => (Ok (os_listdir (st_fs st) path), st).

(** [with zipfile.ZipFile(path, 'w', ZIP_DEFLATED) as zipf:] followed by one
    [zipf.write(file, arcname)] per member. *)
Definition zipfile_write (path : string) (members : list (string * string))
  : M unit :=
  fun st =>
    match zip_write (st_fs st) path members with
    | Ok f => (Ok tt, log (EvZip path members) f st)
    | Raise e => (Raise e, st)
    end.

(** [for x in xs: body(x)] *)
Fixpoint for_each {A} (xs : list A) (body : A -> M unit) : M unit :=
  match xs with
  | [] => ret tt
  | x :: xs' => body x ;; for_each xs' body
  end.

(** Iterating over a class attribute that may be [None]. *)
Definition iter {A} (o : option (list A)) : M (list A) :=
  match o with
  | Some l => ret l
  | None => raise (TypeError "'NoneType' object is not iterable")
  end.

End Primitives.

(* ================================================================== *)
(** ** The [DataDownloader] class *)

Definition GPT2_VOCAB_URL : string :=
  "https://huggingface.co/datasets/RaviChandera/gpt2-vocab/raw/main/gpt2-vocab.json".
Definition GPT2_MERGE_URL : string :=
  "https://huggingface.co/datasets/RaviChandera/gpt2-merges/raw/main/gpt2-merges.txt".

(** What a subclass of [DataDownloader] declares: the abstract properties
    [name] and [urls], and the overridable [num_docs] and [ftfy] (which
    default to [None] and [False]). *)
Record DownloaderClass : Type := mkClass {
  name : string;
  urls : option (list string);
  num_docs : option Z;
  ftfy : bool
}.

(** An instance: its class and the attributes [__init__] sets. *)
Record DataDownloader : Type := mkDownloader {
  cls : DownloaderClass;
  _tokenizer_type : string;
  _merge_file : string;
  _vocab_file : option string;
  _data_dir : string;
  _force_redownload : bool;
  _num_workers : Z;
  dataset_name : option string
}.

Definition base_dir (d : DataDownloader) : string := _data_dir d.
Definition tokenizer_type (d : DataDownloader) : string := _tokenizer_type d.
Definition merge_file (d : DataDownloader) : string := _merge_file d.
Definition vocab_file (d : DataDownloader) : option string := _vocab_file d.
Definition num_workers (d : DataDownloader) : Z := _num_workers d.

Section Downloader.
Context {os : OS}.

(** [os.environ.get(key, default)] *)
Definition environ_get (key default : string) : string :=
  match os_environ_get key with
  | Some v => v
  | None => default
  end.

(** [DataDownloader.__init__]; every argument may be [None]. *)
Definition __init__ (c : DownloaderClass)
    (tokenizer_type merge_file vocab_file data_dir : option string)
    (force_redownload : option bool) (num_workers : option Z)
    (dataset_name : option string) : result DataDownloader :=
  let tokenizer_type :=
    match tokenizer_type with None => "GPT2BPETokenizer" | Some t => t end in
  let data_dir :=
    match data_dir with None => environ_get "DATA_DIR" "./data" | Some d => d end in
  let merge_file :=
    match merge_file with None => data_dir ++ "/gpt2-merges.txt" | Some m => m end in
  let force_redownload :=
    match force_redownload with None => false | Some b => b end in
  let finish (vocab_file : option string) : result DataDownloader :=
    let num_workers :=
      match num_workers with None => cpu_count | Some n => n end in
    Ok (mkDownloader c tokenizer_type merge_file vocab_file data_dir
          force_redownload num_workers dataset_name) in
  match vocab_file with
  | Some v => finish (Some v)
  | None =>
      if String.eqb tokenizer_type "GPT2BPETokenizer" then
        finish (Some (data_dir ++ "/gpt2-vocab.json"))
      else if String.eqb tokenizer_type "HFGPT2Tokenizer" then
        finish (Some "gpt2")
      else if String.eqb tokenizer_type "CharLevelTokenizer" then
        finish None
      else
        (* assert vocab_file is not None, with vocab_file None here *)
        Raise (AssertionError "No vocab file provided")
  end.

(** [exists]: is the dataset directory present *)
Definition exists_ (d : DataDownloader) : M bool :=
  isdir (base_dir d ++ "/" ++ name (cls d)).

(** The command [download] runs for one url. *)
Definition wget_cmd (d : DataDownloader) (url : string) : string :=
  "wget " ++ url ++ " -O " ++
  os_path_join3 (base_dir d) (name (cls d)) (os_path_basename url).

Definition download_failure (url : string) : exn :=
  Exception ("Cannot download file at URL " ++ url ++ ": server may be down").

(** The body of the loop of [download]: the [try] / [except] around one
    fetch. *)
Definition fetch (d : DataDownloader) (url : string) : M unit :=
  try_except
    (let os_cmd := wget_cmd d url in
     rc <- system os_cmd ;;
     if negb (rc =? 0)%Z then raise (download_failure url) else ret tt)
    (fun e => raise (Exception ("Download error: " ++ exn_str e))).

(** [download] *)
Definition download (d : DataDownloader) : M unit :=
  makedirs (os_path_join (base_dir d) (name (cls d))) ;;
  us <- iter (urls (cls d)) ;;
  for_each us (fun url => fetch d url).

(** The command line [tokenize] builds for the input [jsonl_filepath]. *)
Definition tokenize_cmd (d : DataDownloader) (jsonl_filepath : string) : string :=
  let parent_folder := os_path_join (base_dir d) (name (cls d)) in
  let cmd :=
    "python tools/datasets/preprocess_data.py " ++
    "            --input " ++ jsonl_filepath ++ " " ++
    "            --output-prefix " ++ parent_folder ++ "/" ++ name (cls d) ++ " " ++
    "            --vocab " ++ str_opt (vocab_file d) ++ " " ++
    "            --dataset-impl mmap " ++
    "            --tokenizer-type " ++ tokenizer_type d ++ " " ++
    "            --merge-file " ++ merge_file d ++ " " ++
    "            --append-eod " ++
    "            --workers " ++ str_Z (num_workers d) ++ " " in
  let cmd :=
    match num_docs (cls d) with
    | Some n => cmd ++ "--num-docs " ++ str_Z n ++ " "
    | None => cmd
    end in
  let cmd := if ftfy (cls d) then cmd ++ "--ftfy " else cmd in
  cmd.

(** The default input of [tokenize]: one path per url, joined by commas. *)
Definition joined_inputs (d : DataDownloader) (us : list string) : string :=
  let parent_folder := os_path_join (base_dir d) (name (cls d)) in
  String.concat ","
    (map (fun url => os_path_join parent_folder (os_path_basename url)) us).

(** [tokenize]; [jsonl_filepath] defaults to [None]. *)
Definition tokenize (d : DataDownloader) (jsonl_filepath : option string) : M unit :=
  jsonl_filepath <-
    match jsonl_filepath with
    | Some p => ret p
    | None => us <- iter (urls (cls d)) ;; ret (joined_inputs d us)
    end ;;
  _ <- system (tokenize_cmd d jsonl_filepath) ;;
  ret tt.

(** [customdataset_from_text] *)
Definition customdataset_from_text (d : DataDownloader) : M unit :=
  makedirs (os_path_join (base_dir d) (name (cls d))) ;;
  let download_dir := os_path_join (base_dir d) (name (cls d)) in
  let zip_file_path := "/content/gpt-neox/data/text_file.zip" in
  entries <- listdir (base_dir d) ;;
  let txt_files :=
    filter (fun f => endswith f ".txt" && negb (String.eqb f "gpt2-merges.txt"))
           entries in
  match txt_files with
  | [] => raise (AssertionError ("No textfile found at " ++ base_dir d ++ "."))
  | _ :: _ =>
      zipfile_write zip_file_path
        (map (fun txt_file =>
                let file_path := os_path_join (base_dir d) txt_file in
                (file_path, os_path_basename file_path))
             txt_files)
  end.

(** [prepare] *)
Definition prepare (d : DataDownloader) : M unit :=
  if String.eqb (name (cls d)) "customdataset" then
    customdataset_from_text d ;;
    let zip_file_path :=
      os_path_join (os_path_join (base_dir d) (name (cls d)))
                   (name (cls d) ++ ".zip") in
    tokenize d (Some zip_file_path)
  else if _force_redownload d then
    download d ;;
    tokenize d None
  else
    present <- exists_ d ;;
    (if negb present then download d else ret tt) ;;
    tokenize d None.

End Downloader.

(* ================================================================== *)
(** ** The registered datasets *)

Definition Enron : DownloaderClass :=
  mkClass "enron" (Some ["http://eaidata.bmk.sh/data/enron_emails.jsonl.zst"])
          (Some 517401%Z) false.

Definition PileSubset : DownloaderClass :=
  mkClass "pile_00" (Some ["https://the-eye.eu/public/AI/pile/train/00.jsonl.zst"])
          None false.

Definition Pile : DownloaderClass :=
  mkClass "pile"
    (Some (map (fun i => "https://the-eye.eu/public/AI/pile/train/" ++ fmt0 2 i ++ ".jsonl.zst")
               (seq 0 30)))
    None false.

Definition Github : DownloaderClass :=
  mkClass "github" (Some ["http://eaidata.bmk.sh/data/github_small.jsonl.zst"])
          None false.

Definition ArXiv : DownloaderClass :=
  mkClass "arxiv"
    (Some ["https://the-eye.eu/public/AI/pile_preliminary_components/2020-09-08-arxiv-extracts-nofallback-until-2007-068.tar.gz"])
    None false.

Definition EuroParl : DownloaderClass :=
  mkClass "europarl"
    (Some ["https://the-eye.eu/public/AI/pile_preliminary_components/EuroParliamentProceedings_1996_2011.jsonl.zst"])
    None false.

Definition FreeLaw : DownloaderClass :=
  mkClass "freelaw"
    (Some ["https://the-eye.eu/public/AI/pile_preliminary_components/FreeLaw_Opinions.jsonl.zst"])
    None false.

Definition NiH : DownloaderClass :=
  mkClass "nih"
    (Some ["https://the-eye.eu/public/AI/pile_preliminary_components/NIH_ExPORTER_awarded_grant_text.jsonl.zst"])
    None false.

Definition PubMed : DownloaderClass :=
  mkClass "pubmed"
    (Some ["https://the-eye.eu/public/AI/pile_preliminary_components/PMC_extracts.tar.gz"])
    None false.

Definition Books1 : DownloaderClass :=
  mkClass "books1"
    (Some ["https://the-eye.eu/public/AI/pile_preliminary_components/books1.tar.gz"])
    None false.

Definition Books3 : DownloaderClass :=
  mkClass "books3"
    (Some ["https://the-eye.eu/public/AI/pile_preliminary_components/books3.tar.gz"])
    None false.

Definition HackerNews : DownloaderClass :=
  mkClass "hackernews"
    (Some ["https://the-eye.eu/public/AI/pile_preliminary_components/hn.tar.gz"])
    (Some 373000%Z) false.

Definition OpenWebText2 : DownloaderClass :=
  mkClass "openwebtext2"
    (Some ["https://huggingface.co/datasets/segyges/OpenWebText2/resolve/main/openwebtext2.jsonl.zst.tar"])
    (Some 17103000%Z) false.

Definition StackExchange : DownloaderClass :=
  mkClass "stackexchange"
    (Some ["https://the-eye.eu/public/AI/pile_preliminary_components/stackexchange_dataset.tar"])
    None false.

Definition UbuntuIRC : DownloaderClass :=
  mkClass "ubuntu_irc"
    (Some ["https://the-eye.eu/public/AI/pile_preliminary_components/ubuntu_irc_until_2020_9_1.jsonl.zst"])
    None false.

Definition YoutubeSubtitles : DownloaderClass :=
  mkClass "youtube_subtitles"
    (Some ["https://the-eye.eu/public/AI/pile_preliminary_components/yt_subs.jsonl.zst"])
    None false.

Definition C4 : DownloaderClass :=
  mkClass "c4"
    (Some (map (fun i => "https://the-eye.eu/eleuther_staging/c4/en/c4-train." ++ fmt0 5 i
                           ++ "-of-01024.json.gz")
               (seq 0 1024)))
    None false.

Definition C4OpenWebText : DownloaderClass :=
  mkClass "c4_openwebtext"
    (Some (map (fun i => "https://the-eye.eu/eleuther_staging/c4/realnewslike/c4-train."
                           ++ fmt0 5 i ++ "-of-00512.json.gz")
               (seq 0 512)))
    None false.

Definition CustomDataset : DownloaderClass :=
  mkClass "customdataset" None None false.

(** A registry entry: the string [pass], or a class. *)
Inductive Entry : Type :=
| Pass
| Class_ (c : DownloaderClass).

(** [DATA_DOWNLOADERS], in insertion order. *)
Definition DATA_DOWNLOADERS : list (string * Entry) :=
  [ ("pass", Pass);
    ("enron", Class_ Enron);
    ("pile_subset", Class_ PileSubset);
    ("pile", Class_ Pile);
    ("github", Class_ Github);
    ("arxiv", Class_ ArXiv);
    ("europarl", Class_ EuroParl);
    ("freelaw", Class_ FreeLaw);
    ("nih", Class_ NiH);
    ("pubmed", Class_ PubMed);
    ("books1", Class_ Books1);
    ("books3", Class_ Books3);
    ("hackernews", Class_ HackerNews);
    ("openwebtext2", Class_ OpenWebText2);
    ("stackexchange", Class_ StackExchange);
    ("ubuntu_irc", Class_ UbuntuIRC);
    ("youtube_subtitles", Class_ YoutubeSubtitles);
    ("c4", Class_ C4);
    ("c4_openwebtext", Class_ C4OpenWebText);
    ("customdataset", Class_ CustomDataset) ].

(** [dict.get(key, None)]; the keys of the literal are pairwise distinct. *)
Fixpoint dict_get {V} (m : list (string * V)) (key : string) : option V :=
  match m with
  | [] => None
  | (k, v) :: m' => if String.eqb k key then Some v else dict_get m' key
  end.

(** [list(dict.keys())] *)
Definition dict_keys {V} (m : list (string * V)) : list string := map fst m.

Section Dispatch.
Context {os : OS}.

Definition GPT2_VOCAB_FP (data_dir : string) : string := data_dir ++ "//gpt2-vocab.json".
Definition GPT2_MERGE_FP (data_dir : string) : string := data_dir ++ "/gpt2-merges.txt".

Definition vocab_wget (data_dir : string) : string :=
  "wget " ++ GPT2_VOCAB_URL ++ " -O " ++ GPT2_VOCAB_FP data_dir.
Definition merge_wget (data_dir : string) : string :=
  "wget " ++ GPT2_MERGE_URL ++ " -O " ++ GPT2_MERGE_FP data_dir.

(** Is the tokenizer [None] or the GPT2 byte-pair one *)
Definition wants_gpt2_files (tokenizer_type : option string) : bool :=
  match tokenizer_type with
  | None => true
  | Some t => String.eqb t "GPT2BPETokenizer"
  end.

(** [maybe_download_gpt2_tokenizer_data] *)
Definition maybe_download_gpt2_tokenizer_data
    (tokenizer_type : option string) (data_dir : string) : M unit :=
  if wants_gpt2_files tokenizer_type then
    v <- isfile (GPT2_VOCAB_FP data_dir) ;;
    (if negb v then _ <- system (vocab_wget data_dir) ;; ret tt else ret tt) ;;
    m <- isfile (GPT2_MERGE_FP data_dir) ;;
    (if negb m then _ <- system (merge_wget data_dir) ;; ret tt else ret tt)
  else ret tt.

Definition not_recognized (dataset_name : string) : exn :=
  NotImplementedError
    ("Dataset " ++ dquote ++ dataset_name ++ dquote ++
     " not recognized - please choose from " ++ repr_list (dict_keys DATA_DOWNLOADERS)).

(** [prepare_dataset] *)
Definition prepare_dataset (dataset_name : string)
    (tokenizer_type data_dir vocab_file merge_file : option string)
    (force_redownload : option bool) (num_workers : option Z) : M unit :=
  let data_dir :=
    match data_dir with None => environ_get "DATA_DIR" "./data" | Some d => d end in
  makedirs data_dir ;;
  maybe_download_gpt2_tokenizer_data tokenizer_type data_dir ;;
  let DownloaderClass :=
    dict_get DATA_DOWNLOADERS (str_lower (split0 dataset_name)) in
  match DownloaderClass with
  | None => raise (not_recognized dataset_name)
  | Some Pass => ret tt
  | Some (Class_ c) =>
      let num_workers := Some 1%Z in
      let ds_name :=
        if String.eqb (split0 dataset_name) "customdataset"
        then Some dataset_name else None in
      d <- lift (__init__ c tokenizer_type merge_file vocab_file (Some data_dir)
                      force_redownload num_workers ds_name) ;;
      prepare d
  end.

End Dispatch.

(* ================================================================== *)
(** ** A small concrete operating system

    Used to run the program on concrete inputs.  The file system is three
    lists; an external command fails (wait status 256) when it mentions one
    of the strings of [failing], succeeds otherwise, and leaves the file
    system alone; an archive can be created in a directory that is
    there. *)

Record SimFS : Type := mkSimFS {
  sim_dirs : list string;
  sim_files : list string;
  sim_listing : list (string * list string)
}.

Definition mem (x : string) (l : list string) : bool := existsb (String.eqb x) l.

Definition sim_os (DATA_DIR : option string) (ncpu : Z) (failing : list string) : OS :=
  {| fs := SimFS;
     os_environ_get := fun key => if String.eqb key "DATA_DIR" then DATA_DIR else None;
     cpu_count := ncpu;
     os_path_isdir := fun f p => mem p (sim_dirs f);
     os_path_isfile := fun f p => mem p (sim_files f);
     os_listdir := fun f p =>
       match dict_get (sim_listing f) p with Some l => l | None => [] end;
     os_makedirs := fun f p => mkSimFS (p :: sim_dirs f) (sim_files f) (sim_listing f);
     os_system := fun f cmd =>
       (f, if existsb (contains cmd) failing then 256%Z else 0%Z);
     zip_write := fun f p _ =>
       if existsb (fun dir => String.eqb p (dir ++ "/" ++ os_path_basename p))
                  (sim_dirs f)
       then Ok (mkSimFS (sim_dirs f) (p :: sim_files f) (sim_listing f))
       else Raise (FileNotFoundError
                     ("[Errno 2] No such file or directory: '" ++ p ++ "'"));
     str_lower := lower;
     str_lower_ascii := fun s _ => eq_refl
  |}.

(** The events a computation adds to an empty trace, and its result. *)
Definition events {os : OS} {A} (m : M A) (f : fs) : list Event :=
  st_trace (snd (m (mkState f []))).

Definition outcome {os : OS} {A} (m : M A) (f : fs) : result A :=
  fst (m (mkState f [])).

(* ================================================================== *)
(** ** Vocabulary of the statements *)

(** The exception [download] raises when the fetch of [url] fails: the
    inner exception wrapped by the handler. *)
Definition download_error (url : string) : exn :=
  Exception ("Download error: Cannot download file at URL " ++ url
             ++ ": server may be down").

(** A file name [customdataset_from_text] packages. *)
Definition qualifies (f : string) : bool :=
  endswith f ".txt" && negb (String.eqb f "gpt2-merges.txt").

(** Where [customdataset_from_text] writes its archive. *)
Definition written_archive : string := "/content/gpt-neox/data/text_file.zip".

Definition is_makedirs (e : Event) : bool :=
  match e with EvMakedirs _ => true | _ => false end.

Definition is_process (e : Event) : bool :=
  match e with EvSystem _ _ => true | _ => false end.

(** A run of the fetch collaborator, of the transform collaborator. *)
Definition is_fetch (e : Event) : bool :=
  match e with EvSystem cmd _ => startswith cmd "wget " | _ => false end.

Definition is_transform (e : Event) : bool :=
  match e with
  | EvSystem cmd _ => startswith cmd "python tools/datasets/preprocess_data.py "
  | _ => false
  end.

Definition count (p : Event -> bool) (evs : list Event) : nat :=
  List.length (filter p evs).

Section Replay.
Context {os : OS}.

(** The effect of one logged event on the file system. *)
Definition apply_event (f : fs) (e : Event) : fs :=
  match e with
  | EvMakedirs p => os_makedirs f p
  | EvSystem cmd _ => fst (os_system f cmd)
  | EvZip p ms => match zip_write f p ms with Ok f' => f' | Raise _ => f end
  end.

Definition replay (f : fs) (evs : list Event) : fs := fold_left apply_event evs f.

(** [after st evs st']: [st'] is [st] after the events [evs], and after
    nothing else: the trace grew by [evs] and the file system is the one
    these events leave. *)
Definition after (st : State) (evs : list Event) (st' : State) : Prop :=
  st_trace st' = (st_trace st ++ evs)%list /\ st_fs st' = replay (st_fs st) evs.

(** The events [download] logs when every fetch of [us] succeeds. *)
Definition fetched (d : DataDownloader) (us : list string) : list Event :=
  map (fun u => EvSystem (wget_cmd d u) 0%Z) us.

(** [emits P m]: from every state, [m] changes the state only through
    logged events, and each of them satisfies [P]. *)
Definition emits {A} (P : Event -> Prop) (m : M A) : Prop :=
  forall st, exists evs, after st evs (snd (m st)) /\ Forall P evs.

End Replay.

(** The events a descriptor may emit: directories, archives, fetches of its
    own sources and runs of the transform on its own command line. *)
Definition event_of {os : OS} (d : DataDownloader) (e : Event) : Prop :=
  match e with
  | EvMakedirs _ | EvZip _ _ => True
  | EvSystem cmd _ =>
      (exists url, cmd = wget_cmd d url) \/ (exists input, cmd = tokenize_cmd d input)
  end.

(** The members [customdataset_from_text] writes for the files [txt_files]
    of the storage root. *)
Definition members_of (d : DataDownloader) (txt_files : list string)
  : list (string * string) :=
  map (fun txt_file =>
         (os_path_join (base_dir d) txt_file,
          os_path_basename (os_path_join (base_dir d) txt_file)))
      txt_files.

(** The fetches of the shared tokenizer files at the entry of
    [prepare_dataset], from the file system [f]: at most one fetch of the
    vocabulary ([ev_v]) followed by at most one of the merge table
    ([ev_m]); none unless the tokenizer is the byte-pair one or unset; and
    in that case each file is fetched exactly when it is not there. *)
Definition shared_asset_fetches {os : OS} (tokenizer_type : option string)
    (root : string) (f : fs) (ev_v ev_m : list Event) : Prop :=
  (ev_v = [] \/ exists rc, ev_v = [EvSystem (vocab_wget root) rc]) /\
  (ev_m = [] \/ exists rc, ev_m = [EvSystem (merge_wget root) rc]) /\
  (wants_gpt2_files tokenizer_type = false -> ev_v = [] /\ ev_m = []) /\
  (wants_gpt2_files tokenizer_type = true ->
   (ev_v = [] <-> os_path_isfile f (GPT2_VOCAB_FP root) = true) /\
   (ev_m = [] <-> os_path_isfile (replay f ev_v) (GPT2_MERGE_FP root) = true)).

(** The keys of the registry as the error message shows them. *)
Definition known_keys : string :=
  "['pass', 'enron', 'pile_subset', 'pile', 'github', 'arxiv', 'europarl', 'freelaw', 'nih', 'pubmed', 'books1', 'books3', 'hackernews', 'openwebtext2', 'stackexchange', 'ubuntu_irc', 'youtube_subtitles', 'c4', 'c4_openwebtext', 'customdataset']".

(** A transform run with the command line of a one-worker descriptor of
    class [c]. *)
Definition one_worker_transform (c : DownloaderClass) (e : Event) : Prop :=
  is_transform e = true ->
  exists d input rc,
    e = EvSystem (tokenize_cmd d input) rc /\
    cls d = c /\ num_workers d = 1%Z /\
    contains (tokenize_cmd d input) "--workers 1 " = true.

(** The operating system [os] with another answer to [os.path.isfile]. *)
Definition with_isfile (os : OS) (q : @fs os -> string -> bool) : OS :=
  {| fs := @fs os;
     os_environ_get := @os_environ_get os;
     cpu_count := @cpu_count os;
     os_path_isdir := @os_path_isdir os;
     os_path_isfile := q;
     os_listdir := @os_listdir os;
     os_makedirs := @os_makedirs os;
     os_system := @os_system os;
     zip_write := @zip_write os;
     str_lower := @str_lower os;
     str_lower_ascii := @str_lower_ascii os |}.

(** Two runs, one on each of these operating systems, that end with the
    same result, the same trace and the same file system. *)
Definition same_state {os : OS} {q} (s' : @State (with_isfile os q)) (s : @State os)
  : Prop :=
  @st_fs _ s' = @st_fs _ s /\ @st_trace _ s' = @st_trace _ s.

Definition same_run {os : OS} {q} {A} (r' : result A * @State (with_isfile os q))
    (r : result A * @State os) : Prop :=
  fst r' = fst r /\ same_state (snd r') (snd r).

(** No string occurs twice in [l]. *)
Fixpoint nodupb (l : list string) : bool :=
  match l with
  | [] => true
  | x :: l' => negb (mem x l') && nodupb l'
  end.

(** The file [download] fetches [url] into (the argument of [-O]). *)
Definition destination (d : DataDownloader) (url : string) : string :=
  os_path_join3 (base_dir d) (name (cls d)) (os_path_basename url).

(** The descriptor [d] with another value of [_force_redownload]. *)
Definition with_force (b : bool) (d : DataDownloader) : DataDownloader :=
  mkDownloader (cls d) (_tokenizer_type d) (_merge_file d) (_vocab_file d)
    (_data_dir d) b (_num_workers d) (dataset_name d).

(** A test that holds of every class of the registry, of every two
    entries of the registry. *)
Definition every_class (p : DownloaderClass -> bool) : bool :=
  forallb (fun ke => match snd ke with Pass => true | Class_ c => p c end)
          DATA_DOWNLOADERS.

Definition every_two_classes (p : string -> DownloaderClass -> string -> DownloaderClass -> bool)
  : bool :=
  forallb (fun ke1 =>
    forallb (fun ke2 =>
      match snd ke1, snd ke2 with
      | Class_ c1, Class_ c2 => p (fst ke1) c1 (fst ke2) c2
      | _, _ => true
      end) DATA_DOWNLOADERS) DATA_DOWNLOADERS.

(** The sources of a class are fetched into pairwise distinct files. *)
Definition distinct_basenames (c : DownloaderClass) : bool :=
  match urls c with
  | Some us => nodupb (map os_path_basename us)
  | None => true
  end.

(** The directory name of a class is a plain, non-empty name. *)
Definition plain_name (c : DownloaderClass) : bool :=
  negb (has_sep (name c)) && negb (String.eqb (name c) "").

(* ================================================================== *)
(** ** Concrete descriptors and states for the examples *)

(** The [Enron] descriptor as [prepare_dataset] builds it with the default
    tokenizer under the storage root [./data]. *)
Definition enron_at (force : bool) : DataDownloader :=
  mkDownloader Enron "GPT2BPETokenizer" "./data/gpt2-merges.txt"
    (Some "./data/gpt2-vocab.json") "./data" force 1 None.

(** The custom-corpus descriptor under the storage root [./data]. *)
Definition custom_at : DataDownloader :=
  mkDownloader CustomDataset "GPT2BPETokenizer" "./data/gpt2-merges.txt"
    (Some "./data/gpt2-vocab.json") "./data" false 1 None.

(** An empty disk; a disk where the [enron] directory and its source file
    are already there; a storage root with three loose files. *)
Definition fresh_disk : SimFS := mkSimFS [] [] [].

Definition enron_disk : SimFS :=
  mkSimFS ["./data"; "./data/enron"] ["./data/enron/enron_emails.jsonl.zst"]
          [("./data", ["enron"]); ("./data/enron", ["enron_emails.jsonl.zst"])].

Definition loose_disk : SimFS :=
  mkSimFS ["./data"] []
          [("./data", ["a.txt"; "b.txt"; "gpt2-merges.txt"])].

(** The same storage root on a machine that has the directory of the fixed
    archive path. *)
Definition colab_disk : SimFS :=
  mkSimFS ["./data"; "/content/gpt-neox/data"] []
          [("./data", ["a.txt"; "b.txt"; "gpt2-merges.txt"])].

(** Every command succeeds; every [wget] fails; the transform fails. *)
Definition os_ok : OS := sim_os None 4 [].
Definition os_offline : OS := sim_os None 4 ["wget "].
Definition os_bad_transform : OS := sim_os None 4 ["preprocess_data.py"].

(* ================================================================== *)
(** ** Lemmas on strings and paths *)

Lemma append_assoc (a b c : string) : (a ++ b) ++ c = a ++ (b ++ c).
Proof. induction a as [|x a IH]; simpl; [reflexivity | now rewrite IH]. Qed.

Lemma endswith_app (p s : string) : endswith (p ++ s) s = true.
Proof.
  induction p as [|c p IH].
  - destruct s as [|c s]; [reflexivity|].
    cbn [append endswith]. now rewrite String.eqb_refl.
  - cbn [append endswith]. rewrite IH. apply orb_true_r.
Qed.

Lemma endswith_inv (s suf : string) :
  endswith s suf = true -> exists p, s = p ++ suf.
Proof.
  induction s as [|c s IH]; cbn [endswith]; intros H.
  - rewrite orb_false_r in H. apply String.eqb_eq in H. subst. now exists "".
  - apply orb_true_iff in H. destruct H as [H|H].
    + apply String.eqb_eq in H. exists "". now rewrite <- H.
    + destruct (IH H) as [p ->]. now exists (String c p).
Qed.

Lemma has_sep_startswith (f : string) :
  has_sep f = false -> startswith f "/" = false.
Proof.
  destruct f as [|c f]; cbn [has_sep]; intros H; [reflexivity|].
  apply orb_false_iff in H. destruct H as [H _].
  unfold startswith. cbn [String.prefix].
  destruct (ascii_dec "/" c) as [<-|]; [discriminate | reflexivity].
Qed.

Lemma has_sep_app (a b : string) : has_sep (a ++ b) = has_sep a || has_sep b.
Proof.
  induction a as [|c a IH]; simpl; [reflexivity|].
  now rewrite IH, orb_assoc.
Qed.

Lemma basename_no_sep (f : string) : has_sep f = false -> os_path_basename f = f.
Proof.
  destruct f as [|c f]; simpl; intros H; [reflexivity|].
  apply orb_false_iff in H. destruct H as [Hc Hf].
  now rewrite Hf, Hc.
Qed.

Lemma basename_after_sep (a f : string) :
  has_sep f = false -> os_path_basename (a ++ "/" ++ f) = f.
Proof.
  intros Hf. induction a as [|c a IH]; simpl.
  - now rewrite Hf.
  - rewrite has_sep_app. simpl. now rewrite orb_true_r.
Qed.

(** Joining a directory and a plain file name, then taking the base name,
    gives the file name back. *)
Lemma basename_join (a f : string) :
  has_sep f = false -> os_path_basename (os_path_join a f) = f.
Proof.
  intros Hf. unfold os_path_join.
  rewrite (has_sep_startswith _ Hf).
  destruct (String.eqb a "") eqn:Ea; simpl.
  - apply String.eqb_eq in Ea. subst. now apply basename_no_sep.
  - destruct (endswith a "/") eqn:Es.
    + destruct (endswith_inv _ _ Es) as [p ->].
      rewrite append_assoc. now apply (basename_after_sep p f).
    + now apply basename_after_sep.
Qed.

(** Joining onto a relative name keeps that name at the end. *)
Lemma join_relative (a b : string) :
  startswith b "/" = false -> exists p, os_path_join a b = p ++ b.
Proof.
  intros Hb. unfold os_path_join. rewrite Hb.
  destruct (String.eqb a "" || endswith a "/").
  - now exists a.
  - exists (a ++ "/"). now rewrite append_assoc.
Qed.

(* ================================================================== *)
(** ** Runs of the primitives and of the methods *)

Section Runs.
Context {os : OS}.

Lemma after_refl (st : State) : after st [] st.
Proof. split; simpl; [now rewrite app_nil_r | reflexivity]. Qed.

Lemma after_trans (st st1 st2 : State) (evs1 evs2 : list Event) :
  after st evs1 st1 -> after st1 evs2 st2 -> after st (evs1 ++ evs2) st2.
Proof.
  intros [T1 F1] [T2 F2]. split.
  - now rewrite T2, T1, app_assoc.
  - unfold replay in *. now rewrite fold_left_app, <- F1.
Qed.

Lemma after_cons (st st1 st2 : State) (e : Event) (evs : list Event) :
  after st [e] st1 -> after st1 evs st2 -> after st (e :: evs) st2.
Proof. intros H1 H2. exact (after_trans _ _ _ [e] evs H1 H2). Qed.

Lemma makedirs_run (p : string) (st : State) :
  exists st', makedirs p st = (Ok tt, st') /\ after st [EvMakedirs p] st'.
Proof. eexists; split; [reflexivity|]. now split. Qed.

Lemma system_run (cmd : string) (st : State) :
  exists st',
    system cmd st = (Ok (snd (os_system (st_fs st) cmd)), st') /\
    after st [EvSystem cmd (snd (os_system (st_fs st) cmd))] st'.
Proof.
  unfold system, after. simpl.
  destruct (os_system (st_fs st) cmd) as [f rc]; simpl.
  eexists; split; [reflexivity|]. now split.
Qed.

Lemma zipfile_write_run (p : string) (ms : list (string * string)) (st : State) :
  match zip_write (st_fs st) p ms with
  | Ok _ =>
      exists st', zipfile_write p ms st = (Ok tt, st') /\ after st [EvZip p ms] st'
  | Raise e => zipfile_write p ms st = (Raise e, st)
  end.
Proof.
  unfold zipfile_write.
  destruct (zip_write (st_fs st) p ms) as [f|e] eqn:E; [|reflexivity].
  exists (log (EvZip p ms) f st). split; [reflexivity|].
  split; [reflexivity|]. unfold replay. cbn [fold_left apply_event log st_fs].
  now rewrite E.
Qed.

(** One fetch: the command is run once; a non-zero status raises the
    wrapped exception. *)
Lemma fetch_run (d : DataDownloader) (url : string) (st : State) :
  let rc := snd (os_system (st_fs st) (wget_cmd d url)) in
  exists st',
    fetch d url st =
      ((if (rc =? 0)%Z then Ok tt else Raise (download_error url)), st') /\
    after st [EvSystem (wget_cmd d url) rc] st'.
Proof.
  intros rc. destruct (system_run (wget_cmd d url) st) as (st' & E & A).
  exists st'. split; [|exact A].
  unfold fetch, try_except, bind. rewrite E. fold rc.
  destruct (rc =? 0)%Z; reflexivity.
Qed.

(** The loop of [download]: it stops at the first fetch that fails. *)
Lemma for_each_fetch (d : DataDownloader) (us : list string) :
  forall st, exists st',
    (for_each us (fun url => fetch d url) st = (Ok tt, st') /\
     after st (fetched d us) st')
    \/
    (exists us1 u us2 rc,
        us = (us1 ++ u :: us2)%list /\ rc <> 0%Z /\
        for_each us (fun url => fetch d url) st = (Raise (download_error u), st') /\
        after st (fetched d us1 ++ [EvSystem (wget_cmd d u) rc]) st').
Proof.
  induction us as [|u us IH]; intros st.
  - exists st. left. split; [reflexivity | apply after_refl].
  - destruct (fetch_run d u st) as (st1 & E & A).
    assert (Hstep : for_each (u :: us) (fun url => fetch d url) st =
                    match fetch d u st with
                    | (Ok _, st') => for_each us (fun url => fetch d url) st'
                    | (Raise e, st') => (Raise e, st')
                    end) by reflexivity.
    rewrite Hstep, E. clear Hstep.
    destruct (Z.eqb_spec (snd (os_system (st_fs st) (wget_cmd d u))) 0) as [Hz|Hz].
    + rewrite Hz in A.
      destruct (IH st1) as (st' & [[R A'] | (us1 & v & us2 & rc & -> & Hrc & R & A')]);
        exists st'.
      * left. split; [exact R|]. exact (after_cons _ _ _ _ _ A A').
      * right. exists (u :: us1), v, us2, rc.
        split; [reflexivity | split; [exact Hrc | split; [exact R|]]].
        exact (after_cons _ _ _ _ _ A A').
    + exists st1. right.
      exists [], u, us, (snd (os_system (st_fs st) (wget_cmd d u))).
      split; [reflexivity | split; [exact Hz | split; [reflexivity | exact A]]].
Qed.

Lemma download_run (d : DataDownloader) (us : list string) (st : State) :
  urls (cls d) = Some us ->
  let dir := os_path_join (base_dir d) (name (cls d)) in
  exists st',
    (download d st = (Ok tt, st') /\
     after st (EvMakedirs dir :: fetched d us) st')
    \/
    (exists us1 u us2 rc,
        us = (us1 ++ u :: us2)%list /\ rc <> 0%Z /\
        download d st = (Raise (download_error u), st') /\
        after st (EvMakedirs dir :: fetched d us1 ++ [EvSystem (wget_cmd d u) rc]) st').
Proof.
  intros Hu dir.
  destruct (makedirs_run dir st) as (st1 & E & A).
  assert (Hd : download d st = for_each us (fun url => fetch d url) st1).
  { unfold download, bind. fold dir. rewrite E, Hu. reflexivity. }
  rewrite Hd. clear Hd.
  destruct (for_each_fetch d us st1)
    as (st' & [[R A'] | (us1 & v & us2 & rc & -> & Hrc & R & A')]); exists st'.
  - left. split; [exact R|]. exact (after_cons _ _ _ _ _ A A').
  - right. exists us1, v, us2, rc.
    split; [reflexivity | split; [exact Hrc | split; [exact R|]]].
    exact (after_cons _ _ _ _ _ A A').
Qed.

(** [tokenize] runs the transform command once and returns, whatever the
    status. *)
Lemma tokenize_explicit_run (d : DataDownloader) (p : string) (st : State) :
  let cmd := tokenize_cmd d p in
  exists st',
    tokenize d (Some p) st = (Ok tt, st') /\
    after st [EvSystem cmd (snd (os_system (st_fs st) cmd))] st'.
Proof.
  intros cmd. destruct (system_run cmd st) as (st' & E & A).
  exists st'. split; [|exact A].
  unfold tokenize, bind, ret. fold cmd. now rewrite E.
Qed.

Lemma tokenize_default_run (d : DataDownloader) (us : list string) (st : State) :
  urls (cls d) = Some us ->
  let cmd := tokenize_cmd d (joined_inputs d us) in
  exists st',
    tokenize d None st = (Ok tt, st') /\
    after st [EvSystem cmd (snd (os_system (st_fs st) cmd))] st'.
Proof.
  intros Hu cmd. destruct (system_run cmd st) as (st' & E & A).
  exists st'. split; [|exact A].
  unfold tokenize, iter, bind, ret. rewrite Hu. fold cmd. now rewrite E.
Qed.

End Runs.

(** [download] never asks whether a file is there: its run is the same
    whatever [os.path.isfile] answers. *)
Lemma fetch_ignores_isfile {os : OS} q d url
    (s' : @State (with_isfile os q)) (s : @State os) :
  same_state s' s ->
  same_run (@fetch (with_isfile os q) d url s') (@fetch os d url s).
Proof.
  destruct s' as [f' t'], s as [f t]. intros [Hf Ht]. cbn in Hf, Ht. subst f' t'.
  unfold fetch, try_except, bind, system, same_run, same_state.
  generalize (wget_cmd d url) as cmd. intros cmd.
  cbn [st_fs st_trace os_system with_isfile].
  destruct (os_system f cmd) as [f1 rc].
  destruct (rc =? 0)%Z; cbn; auto.
Qed.

Lemma for_each_fetch_ignores_isfile {os : OS} q d us :
  forall (s' : @State (with_isfile os q)) (s : @State os),
    same_state s' s ->
    same_run (@for_each (with_isfile os q) _ us (fun url => fetch d url) s')
             (@for_each os _ us (fun url => fetch d url) s).
Proof.
  induction us as [|u us IH]; intros s' s H.
  - split; [reflexivity | exact H].
  - pose proof (fetch_ignores_isfile q d u s' s H) as [Hr Hs].
    cbn [for_each]. unfold bind.
    destruct (@fetch (with_isfile os q) d u s') as [r1' s1'].
    destruct (@fetch os d u s) as [r1 s1]. cbn in Hr, Hs. subst r1'.
    destruct r1; [now apply IH | split; [reflexivity | exact Hs]].
Qed.

Lemma download_ignores_isfile {os : OS} q d (st : @State os) :
  same_run (@download (with_isfile os q) d
              (@mkState (with_isfile os q) (st_fs st) (st_trace st)))
           (@download os d st).
Proof.
  destruct st as [f t]. cbn [st_fs st_trace]. unfold download.
  generalize (os_path_join (base_dir d) (name (cls d))) as dir. intros dir.
  unfold bind at 1 3. unfold makedirs.
  destruct (urls (cls d)) as [us|].
  - apply for_each_fetch_ignores_isfile. split; reflexivity.
  - split; [reflexivity | split; reflexivity].
Qed.

(** Every registered class except the custom one declares its sources. *)
Lemma registered_sources_declared (key : string) (c : DownloaderClass) :
  In (key, Class_ c) DATA_DOWNLOADERS -> name c <> "customdataset" ->
  exists us, urls c = Some us.
Proof.
  unfold DATA_DOWNLOADERS. cbn [In]. intros H Hn.
  repeat (destruct H as [H|H];
          [inversion H; subst; first [now elim Hn | eexists; reflexivity] |]).
  contradiction.
Qed.

(* ================================================================== *)
(** ** Acquisition *)

(** C7. [download] creates the dataset directory and then fetches the
    sources in order, one [wget] per source.  Either every fetch returns 0
    and the call returns, or the first fetch with a non-zero status makes
    the call raise the download error for that source; the later sources
    are not fetched.  In both cases the file system is left as the logged
    events leave it: nothing is cleaned up.  Whether a destination file is
    already there plays no part: the statement holds from every state, and
    the run (result, trace, file system) is the same whatever
    [os.path.isfile] would answer. *)
Theorem download_stops_at_first_failure {os : OS}
    (d : DataDownloader) (us : list string) (st : State) :
  urls (cls d) = Some us ->
  let dir := os_path_join (base_dir d) (name (cls d)) in
  (exists st',
    (download d st = (Ok tt, st') /\
     after st (EvMakedirs dir :: fetched d us) st')
    \/
    (exists us1 u us2 rc,
        us = (us1 ++ u :: us2)%list /\ rc <> 0%Z /\
        download d st = (Raise (download_error u), st') /\
        after st (EvMakedirs dir :: fetched d us1 ++ [EvSystem (wget_cmd d u) rc]) st'))
  /\
  (forall q,
      same_run (@download (with_isfile os q) d
                  (@mkState (with_isfile os q) (st_fs st) (st_trace st)))
               (download d st)).
Proof.
  intros Hu dir. split.
  - exact (download_run d us st Hu).
  - intros q. exact (download_ignores_isfile q d st).
Qed.

(** The destination file of the only source is on the disk and the network
    is down: the source is fetched all the same and the failure is raised. *)
Lemma download_stops_at_first_failure_witness :
  let d := enron_at false in
  let us := ["http://eaidata.bmk.sh/data/enron_emails.jsonl.zst"] in
  let st := mkState (os := os_offline) enron_disk [] in
  urls (cls d) = Some us /\
  exists st',
    (download d st = (Ok tt, st') /\
     after st (EvMakedirs "./data/enron" :: fetched d us) st')
    \/
    (exists us1 u us2 rc,
        us = (us1 ++ u :: us2)%list /\ rc <> 0%Z /\
        download d st = (Raise (download_error u), st') /\
        after st (EvMakedirs "./data/enron" :: fetched d us1
                  ++ [EvSystem (wget_cmd d u) rc]) st').
Proof.
  intros d us st. split; [reflexivity|].
  exact (proj1 (download_stops_at_first_failure (os := os_offline) d us st eq_refl)).
Defined.

Example download_offline_run :
  @os_path_isfile os_offline enron_disk "./data/enron/enron_emails.jsonl.zst" = true /\
  outcome (os := os_offline) (download (enron_at false)) enron_disk =
    Raise (download_error "http://eaidata.bmk.sh/data/enron_emails.jsonl.zst") /\
  events (os := os_offline) (download (enron_at false)) enron_disk =
    [EvMakedirs "./data/enron";
     EvSystem "wget http://eaidata.bmk.sh/data/enron_emails.jsonl.zst -O ./data/enron/enron_emails.jsonl.zst" 256].
Proof. repeat split; vm_compute; reflexivity. Qed.

(* ================================================================== *)
(** ** Transformation *)

(** C8, as the code has it.  [tokenize] does not look at the exit status
    of the transform process.  Whenever its input is determined (an
    explicit path, or the declared sources of the class), it runs the
    transform command exactly once and returns normally, whatever status
    the process returns.  Called without an explicit input on a class that
    declares no sources, it raises [TypeError] before any process is run. *)
Theorem tokenize_ignores_exit_status {os : OS}
    (d : DataDownloader) (jsonl_filepath : option string) (input : string)
    (st : State) :
  (jsonl_filepath = Some input \/
   (jsonl_filepath = None /\
    exists us, urls (cls d) = Some us /\ input = joined_inputs d us) ->
   let cmd := tokenize_cmd d input in
   let rc := snd (os_system (st_fs st) cmd) in
   exists st',
     tokenize d jsonl_filepath st = (Ok tt, st') /\
     after st [EvSystem cmd rc] st') /\
  (jsonl_filepath = None -> urls (cls d) = None ->
   tokenize d jsonl_filepath st =
     (Raise (TypeError "'NoneType' object is not iterable"), st)).
Proof.
  split.
  - intros [-> | (-> & us & Hu & ->)] cmd rc.
    + exact (tokenize_explicit_run d input st).
    + exact (tokenize_default_run d us st Hu).
  - intros -> Hu. unfold tokenize, bind. rewrite Hu. reflexivity.
Qed.

(** The transform process exits with a non-zero status and [tokenize]
    returns normally. *)
Lemma tokenize_ignores_exit_status_witness :
  let d := enron_at false in
  let input := "./data/enron/enron_emails.jsonl.zst" in
  let st := mkState (os := os_bad_transform) enron_disk [] in
  snd (@os_system os_bad_transform enron_disk (tokenize_cmd d input)) = 256%Z /\
  exists st',
    tokenize d None st = (Ok tt, st') /\
    after st [EvSystem (tokenize_cmd d input)
                (snd (@os_system os_bad_transform enron_disk (tokenize_cmd d input)))] st'.
Proof.
  intros d input st. split; [vm_compute; reflexivity|].
  apply (proj1 (tokenize_ignores_exit_status (os := os_bad_transform) d None input st)).
  right. split; [reflexivity|]. eexists. split; reflexivity.
Defined.

(** The custom descriptor, [tokenize()] with no input: the call does not
    return normally, and no process was run. *)
Lemma tokenize_without_sources_raises :
  outcome (os := os_ok) (tokenize custom_at None) fresh_disk =
    Raise (TypeError "'NoneType' object is not iterable") /\
  events (os := os_ok) (tokenize custom_at None) fresh_disk = [].
Proof. split; vm_compute; reflexivity. Qed.

(* ================================================================== *)
(** ** Orchestration of a standard dataset *)

(** C2, as the code has it.  For a descriptor that is not the custom one
    and declares its sources, [prepare] acquires exactly when
    [_force_redownload] is set or the dataset directory is absent.  When it
    does not acquire, the only effect is one run of the transform.  When it
    acquires, either every source is fetched once, in order, with status 0
    and the transform is then run once, or a fetch fails: [prepare] then
    raises the download error and the transform is not run. *)
Theorem prepare_standard {os : OS}
    (d : DataDownloader) (us : list string) (st : State) :
  name (cls d) <> "customdataset" ->
  urls (cls d) = Some us ->
  let dir := os_path_join (base_dir d) (name (cls d)) in
  let present := os_path_isdir (st_fs st) (base_dir d ++ "/" ++ name (cls d)) in
  let transform := tokenize_cmd d (joined_inputs d us) in
  exists st',
    if _force_redownload d || negb present then
      (exists rc,
          prepare d st = (Ok tt, st') /\
          after st (EvMakedirs dir :: fetched d us ++ [EvSystem transform rc]) st')
      \/
      (exists us1 u us2 rc,
          us = (us1 ++ u :: us2)%list /\ rc <> 0%Z /\
          prepare d st = (Raise (download_error u), st') /\
          after st (EvMakedirs dir :: fetched d us1 ++ [EvSystem (wget_cmd d u) rc]) st')
    else
      exists rc,
        prepare d st = (Ok tt, st') /\
        after st [EvSystem transform rc] st'.
Proof.
  intros Hn Hu dir present transform.
  apply String.eqb_neq in Hn.
  assert (Hacq : forall st0,
    exists st',
      (exists rc,
          (download d ;; tokenize d None) st0 = (Ok tt, st') /\
          after st0 (EvMakedirs dir :: fetched d us ++ [EvSystem transform rc]) st')
      \/
      (exists us1 u us2 rc,
          us = (us1 ++ u :: us2)%list /\ rc <> 0%Z /\
          (download d ;; tokenize d None) st0 = (Raise (download_error u), st') /\
          after st0 (EvMakedirs dir :: fetched d us1 ++ [EvSystem (wget_cmd d u) rc]) st')).
  { intros st0.
    destruct (download_run d us st0 Hu)
      as (st1 & [[R A] | (us1 & u & us2 & rc & Hs & Hrc & R & A)]).
    - destruct (tokenize_default_run d us st1 Hu) as (st' & R' & A').
      exists st'. left. eexists. split.
      + unfold bind. rewrite R. exact R'.
      + exact (after_trans _ _ _ (EvMakedirs dir :: fetched d us) _ A A').
    - exists st1. right. exists us1, u, us2, rc.
      split; [exact Hs | split; [exact Hrc | split; [|exact A]]].
      unfold bind. now rewrite R. }
  assert (Hprep : prepare d st =
                  if _force_redownload d || negb present
                  then (download d ;; tokenize d None) st
                  else tokenize d None st).
  { unfold prepare. rewrite Hn.
    destruct (_force_redownload d); cbn [orb]; [reflexivity|].
    subst present. unfold exists_, isdir, bind, ret.
    destruct (os_path_isdir (st_fs st) (base_dir d ++ "/" ++ name (cls d)));
      reflexivity. }
  rewrite Hprep. clear Hprep.
  destruct (_force_redownload d || negb present).
  - apply Hacq.
  - destruct (tokenize_default_run d us st Hu) as (st' & R' & A').
    exists st'. eexists. split; [exact R' | exact A'].
Qed.

(** The [enron] directory is there and no refresh is forced: the transform
    is run and nothing is fetched. *)
Lemma prepare_standard_witness :
  name (cls (enron_at false)) <> "customdataset" /\
  urls (cls (enron_at false)) =
    Some ["http://eaidata.bmk.sh/data/enron_emails.jsonl.zst"] /\
  exists st' rc,
    prepare (enron_at false) (mkState (os := os_ok) enron_disk []) = (Ok tt, st') /\
    after (mkState (os := os_ok) enron_disk [])
      [EvSystem (tokenize_cmd (enron_at false) "./data/enron/enron_emails.jsonl.zst") rc]
      st'.
Proof.
  assert (Hn : name (cls (enron_at false)) <> "customdataset")
    by (intros H; vm_compute in H; discriminate H).
  split; [exact Hn|]. split; [reflexivity|].
  exact (prepare_standard (os := os_ok) (enron_at false)
           ["http://eaidata.bmk.sh/data/enron_emails.jsonl.zst"]
           (mkState (os := os_ok) enron_disk []) Hn eq_refl).
Defined.

(** A forced refresh while the network is down: the fetch fails, [prepare]
    raises and the transform is never run. *)
Lemma prepare_failed_fetch_skips_transform :
  name (cls (enron_at true)) <> "customdataset" /\
  outcome (os := os_offline) (prepare (enron_at true)) enron_disk =
    Raise (download_error "http://eaidata.bmk.sh/data/enron_emails.jsonl.zst") /\
  count is_fetch (events (os := os_offline) (prepare (enron_at true)) enron_disk) = 1%nat /\
  count is_transform (events (os := os_offline) (prepare (enron_at true)) enron_disk) = 0%nat.
Proof.
  split; [intros H; vm_compute in H; discriminate H|].
  repeat split; vm_compute; reflexivity.
Qed.

(** A forced refresh with the network up, for comparison. *)
Example prepare_forced_refresh_run :
  events (os := os_ok) (prepare (enron_at true)) enron_disk =
    [EvMakedirs "./data/enron";
     EvSystem (wget_cmd (enron_at true) "http://eaidata.bmk.sh/data/enron_emails.jsonl.zst") 0;
     EvSystem (tokenize_cmd (enron_at true) "./data/enron/enron_emails.jsonl.zst") 0].
Proof. vm_compute; reflexivity. Qed.

(* ================================================================== *)
(** ** Packaging of a custom corpus *)

Section Packaging.
Context {os : OS}.

Lemma members_of_flat (d : DataDownloader) (l : list string) :
  Forall (fun f => has_sep f = false) l ->
  members_of d l = map (fun f => (os_path_join (base_dir d) f, f)) l.
Proof.
  induction 1 as [|f l Hf _ IH]; [reflexivity|].
  cbn [members_of map]. rewrite (basename_join _ _ Hf).
  f_equal. exact IH.
Qed.

Lemma customdataset_from_text_run (d : DataDownloader) (st : State) :
  let dir := os_path_join (base_dir d) (name (cls d)) in
  let txt_files := filter qualifies (os_listdir (os_makedirs (st_fs st) dir) (base_dir d)) in
  exists st',
    match txt_files with
    | [] =>
        customdataset_from_text d st =
          (Raise (AssertionError ("No textfile found at " ++ base_dir d ++ ".")), st') /\
        after st [EvMakedirs dir] st'
    | _ :: _ =>
        match zip_write (os_makedirs (st_fs st) dir) written_archive
                        (members_of d txt_files) with
        | Ok _ =>
            customdataset_from_text d st = (Ok tt, st') /\
            after st [EvMakedirs dir; EvZip written_archive (members_of d txt_files)] st'
        | Raise e =>
            customdataset_from_text d st = (Raise e, st') /\
            after st [EvMakedirs dir] st'
        end
    end.
Proof.
  intros dir txt_files.
  destruct (makedirs_run dir st) as (st1 & E & A).
  assert (Hfs : st_fs st1 = os_makedirs (st_fs st) dir) by apply A.
  assert (Hrun : customdataset_from_text d st =
                 match txt_files with
                 | [] => (Raise (AssertionError ("No textfile found at " ++ base_dir d ++ ".")), st1)
                 | _ :: _ => zipfile_write written_archive (members_of d txt_files) st1
                 end).
  { unfold customdataset_from_text, bind. fold dir. rewrite E.
    unfold listdir. rewrite Hfs. fold qualifies. fold txt_files.
    destruct txt_files; reflexivity. }
  rewrite Hrun. clear Hrun.
  destruct txt_files as [|f l].
  - exists st1. split; [reflexivity | exact A].
  - pose proof (zipfile_write_run written_archive (members_of d (f :: l)) st1) as Hz.
    rewrite Hfs in Hz.
    destruct (zip_write (os_makedirs (st_fs st) dir) written_archive
                (members_of d (f :: l))) as [f'|e].
    + destruct Hz as (st' & E' & A').
      exists st'. split; [exact E'|]. exact (after_cons _ _ _ _ _ A A').
    + exists st1. split; [exact Hz | exact A].
Qed.

End Packaging.

Lemma qualifies_iff (f : string) :
  qualifies f = true <-> endswith f ".txt" = true /\ f <> "gpt2-merges.txt".
Proof.
  unfold qualifies. rewrite andb_true_iff, negb_true_iff, String.eqb_neq.
  reflexivity.
Qed.

(** C5, what the code does.  [customdataset_from_text] lists the storage
    root itself, keeps the entries that end in [.txt] except
    [gpt2-merges.txt], and raises the assertion error without writing an
    archive when none is left.  Otherwise it opens the archive at the fixed
    path [written_archive]: if that archive can be created, its members are
    exactly the kept files, each under its own name; if not (the directory
    of the fixed path is missing), the exception of [zipfile.ZipFile] is
    raised and nothing is archived. *)
Theorem packaging_archives_qualifying_files {os : OS}
    (d : DataDownloader) (st : State) :
  let dir := os_path_join (base_dir d) (name (cls d)) in
  let entries := os_listdir (os_makedirs (st_fs st) dir) (base_dir d) in
  let txt_files := filter qualifies entries in
  let members := map (fun f => (os_path_join (base_dir d) f, f)) txt_files in
  Forall (fun f => has_sep f = false) entries ->
  (forall f, In f txt_files <->
             In f entries /\ endswith f ".txt" = true /\ f <> "gpt2-merges.txt") /\
  exists st',
    match txt_files with
    | [] =>
        customdataset_from_text d st =
          (Raise (AssertionError ("No textfile found at " ++ base_dir d ++ ".")), st') /\
        after st [EvMakedirs dir] st'
    | _ :: _ =>
        match zip_write (os_makedirs (st_fs st) dir) written_archive members with
        | Ok _ =>
            customdataset_from_text d st = (Ok tt, st') /\
            after st [EvMakedirs dir; EvZip written_archive members] st'
        | Raise e =>
            customdataset_from_text d st = (Raise e, st') /\
            after st [EvMakedirs dir] st'
        end
    end.
Proof.
  intros dir entries txt_files members Hflat. split.
  - intros f. unfold txt_files. rewrite filter_In, qualifies_iff. reflexivity.
  - assert (Hkept : Forall (fun f => has_sep f = false) txt_files).
    { apply Forall_forall. intros f Hf. apply filter_In in Hf.
      exact (proj1 (Forall_forall _ _) Hflat f (proj1 Hf)). }
    unfold members. rewrite <- (members_of_flat d txt_files Hkept).
    exact (customdataset_from_text_run d st).
Qed.

(** The storage root [./data] holds [a.txt], [b.txt] and [gpt2-merges.txt]
    and the directory of the fixed archive path is not there: the archive
    cannot be created, the call raises and nothing is archived. *)
Lemma packaging_archives_qualifying_files_witness :
  Forall (fun f => has_sep f = false) ["a.txt"; "b.txt"; "gpt2-merges.txt"] /\
  exists st',
    customdataset_from_text custom_at (mkState (os := os_ok) loose_disk []) =
      (Raise (FileNotFoundError
                "[Errno 2] No such file or directory: '/content/gpt-neox/data/text_file.zip'"),
       st') /\
    after (mkState (os := os_ok) loose_disk []) [EvMakedirs "./data/customdataset"] st'.
Proof.
  assert (H : Forall (fun f => has_sep f = false) ["a.txt"; "b.txt"; "gpt2-merges.txt"])
    by (repeat constructor).
  split; [exact H|].
  exact (proj2 (packaging_archives_qualifying_files (os := os_ok) custom_at
                  (mkState (os := os_ok) loose_disk []) H)).
Defined.

(** The same storage root on a machine where [/content/gpt-neox/data] is
    there: the archive holds [a.txt] and [b.txt]. *)
Example packaging_on_colab_disk :
  outcome (os := os_ok) (customdataset_from_text custom_at) colab_disk = Ok tt /\
  events (os := os_ok) (customdataset_from_text custom_at) colab_disk =
    [EvMakedirs "./data/customdataset";
     EvZip written_archive [("./data/a.txt", "a.txt"); ("./data/b.txt", "b.txt")]].
Proof. split; vm_compute; reflexivity. Qed.

(** Only the merge table is at the storage root: nothing qualifies, the
    assertion fails and no archive is written. *)
Example packaging_without_text_files :
  outcome (os := os_ok) (customdataset_from_text custom_at)
    (mkSimFS ["./data"] [] [("./data", ["gpt2-merges.txt"; "notes.md"])]) =
    Raise (AssertionError "No textfile found at ./data.") /\
  events (os := os_ok) (customdataset_from_text custom_at)
    (mkSimFS ["./data"] [] [("./data", ["gpt2-merges.txt"; "notes.md"])]) =
    [EvMakedirs "./data/customdataset"].
Proof. split; vm_compute; reflexivity. Qed.

(** A path built by joining onto [customdataset.zip] is never the path the
    archive is written to. *)
Lemma joined_zip_is_not_written_archive (dir : string) :
  os_path_join dir "customdataset.zip" <> written_archive.
Proof.
  destruct (join_relative dir "customdataset.zip" eq_refl) as [p Hp].
  rewrite Hp. intros H.
  assert (E : endswith (p ++ "customdataset.zip") "customdataset.zip" = true)
    by apply endswith_app.
  rewrite H in E. vm_compute in E. discriminate E.
Qed.

(** C1, what the code does.  For the custom descriptor, [prepare] packages
    and then runs the transform on [<root>/customdataset/customdataset.zip],
    but the archive is written to the fixed path [written_archive], which
    is a different path for every storage root: the transform is pointed at
    a file that packaging did not write.  (When the archive cannot be
    created at the fixed path, [prepare] raises before any transform.) *)
Theorem custom_archive_is_not_the_transform_input {os : OS}
    (d : DataDownloader) (st : State) :
  name (cls d) = "customdataset" ->
  let dir := os_path_join (base_dir d) "customdataset" in
  let input := os_path_join dir "customdataset.zip" in
  let txt_files :=
    filter qualifies (os_listdir (os_makedirs (st_fs st) dir) (base_dir d)) in
  input <> written_archive /\
  (txt_files <> [] ->
   match zip_write (os_makedirs (st_fs st) dir) written_archive
                   (members_of d txt_files) with
   | Ok _ =>
       exists st' rc,
         prepare d st = (Ok tt, st') /\
         after st [EvMakedirs dir;
                   EvZip written_archive (members_of d txt_files);
                   EvSystem (tokenize_cmd d input) rc] st'
   | Raise e =>
       exists st', prepare d st = (Raise e, st') /\ after st [EvMakedirs dir] st'
   end).
Proof.
  intros Hn dir input txt_files. split.
  - apply joined_zip_is_not_written_archive.
  - intros Hne.
    assert (Hprep : prepare d st =
                    (customdataset_from_text d ;; tokenize d (Some input)) st)
      by (unfold prepare; rewrite Hn; reflexivity).
    pose proof (customdataset_from_text_run d st) as Hrun.
    cbv zeta in Hrun. rewrite Hn in Hrun. fold dir in Hrun. fold txt_files in Hrun.
    destruct Hrun as (st1 & Hrun).
    destruct txt_files as [|f l]; [now elim Hne|].
    destruct (zip_write (os_makedirs (st_fs st) dir) written_archive
                (members_of d (f :: l))) as [f'|e].
    + destruct Hrun as [R A].
      destruct (tokenize_explicit_run d input st1) as (st' & R' & A').
      exists st'. eexists. split.
      * rewrite Hprep. unfold bind. rewrite R. exact R'.
      * exact (after_trans _ _ _ [EvMakedirs dir; EvZip written_archive _] _ A A').
    + destruct Hrun as [R A]. exists st1. split; [| exact A].
      rewrite Hprep. unfold bind. now rewrite R.
Qed.

(** The storage root [./data] with two loose text files, on a machine that
    has the directory of the fixed path: the archive goes to the fixed
    path, the transform reads [./data/customdataset/customdataset.zip]. *)
Lemma custom_archive_is_not_the_transform_input_witness :
  name (cls custom_at) = "customdataset" /\
  "./data/customdataset/customdataset.zip" <> written_archive /\
  exists st' rc,
    prepare custom_at (mkState (os := os_ok) colab_disk []) = (Ok tt, st') /\
    after (mkState (os := os_ok) colab_disk [])
      [EvMakedirs "./data/customdataset";
       EvZip "/content/gpt-neox/data/text_file.zip"
         [("./data/a.txt", "a.txt"); ("./data/b.txt", "b.txt")];
       EvSystem (tokenize_cmd custom_at "./data/customdataset/customdataset.zip") rc] st'.
Proof.
  split; [reflexivity|].
  pose proof (custom_archive_is_not_the_transform_input (os := os_ok) custom_at
                (mkState (os := os_ok) colab_disk []) eq_refl) as [Hd Hrun].
  split; [exact Hd|].
  apply Hrun. discriminate.
Defined.

(* ================================================================== *)
(** ** Construction of a descriptor *)

(** C6. With no vocabulary file given, [__init__] derives it from the
    tokenizer type: the byte-pair tokenizer (also the default when no type
    is given) gets [<data_dir>/gpt2-vocab.json], the wrapped pretrained one
    gets the name [gpt2], the character-level one gets none and the
    construction succeeds, and any other type fails the assertion.  An
    explicit vocabulary file is kept for every type. *)
Theorem init_vocab_defaults {os : OS}
    (c : DownloaderClass) (merge_file data_dir : option string)
    (force_redownload : option bool) (num_workers : option Z)
    (dataset_name : option string) :
  let root :=
    match data_dir with None => environ_get "DATA_DIR" "./data" | Some r => r end in
  let make tokenizer_type vocab_file :=
    __init__ c tokenizer_type merge_file vocab_file data_dir force_redownload
         num_workers dataset_name in
  (forall t, t = None \/ t = Some "GPT2BPETokenizer" ->
     exists d, make t None = Ok d /\ base_dir d = root /\
               vocab_file d = Some (root ++ "/gpt2-vocab.json")) /\
  (exists d, make (Some "HFGPT2Tokenizer") None = Ok d /\ vocab_file d = Some "gpt2") /\
  (exists d, make (Some "CharLevelTokenizer") None = Ok d /\ vocab_file d = None) /\
  (forall t, t <> "GPT2BPETokenizer" -> t <> "HFGPT2Tokenizer" ->
             t <> "CharLevelTokenizer" ->
     make (Some t) None = Raise (AssertionError "No vocab file provided")) /\
  (forall t v, exists d, make t (Some v) = Ok d /\ vocab_file d = Some v).
Proof.
  intros root make. unfold make, __init__. fold root.
  split; [|split; [|split; [|split]]].
  - intros t [-> | ->]; eexists; (split; [reflexivity | split; reflexivity]).
  - eexists. split; reflexivity.
  - eexists. split; reflexivity.
  - intros t H1 H2 H3.
    apply String.eqb_neq in H1, H2, H3. now rewrite H1, H2, H3.
  - intros t v. eexists. split; reflexivity.
Qed.

(** A tokenizer type outside the three known ones and no vocabulary: the
    construction fails. *)
Lemma init_vocab_defaults_witness :
  __init__ (os := os_ok) Enron (Some "SPMTokenizer") None None None None None None =
    Raise (AssertionError "No vocab file provided").
Proof.
  apply (proj1 (proj2 (proj2 (proj2
           (init_vocab_defaults (os := os_ok) Enron None None None None None))))
           "SPMTokenizer"); discriminate.
Defined.

Example init_byte_pair_default :
  option_map vocab_file
    (match __init__ (os := os_ok) Enron None None None (Some "/srv/corpora") None None None with
     | Ok d => Some d
     | Raise _ => None
     end) = Some (Some "/srv/corpora/gpt2-vocab.json").
Proof. reflexivity. Qed.

(** C10. The attribute [dataset_name] is stored by [__init__] and read by
    no method: two constructions that differ only in it either fail alike
    or give descriptors on which [exists], [download], [tokenize],
    [customdataset_from_text] and [prepare] are the same computation (same
    result, same trace, same file system from every state). *)
Theorem dataset_name_is_never_read {os : OS}
    (c : DownloaderClass) (tokenizer_type merge_file vocab_file data_dir : option string)
    (force_redownload : option bool) (num_workers : option Z)
    (name1 name2 : option string) :
  match __init__ c tokenizer_type merge_file vocab_file data_dir force_redownload
             num_workers name1,
        __init__ c tokenizer_type merge_file vocab_file data_dir force_redownload
             num_workers name2 with
  | Ok d1, Ok d2 =>
      forall st,
        exists_ d1 st = exists_ d2 st /\
        download d1 st = download d2 st /\
        (forall jsonl_filepath,
            tokenize d1 jsonl_filepath st = tokenize d2 jsonl_filepath st) /\
        customdataset_from_text d1 st = customdataset_from_text d2 st /\
        prepare d1 st = prepare d2 st
  | Raise e1, Raise e2 => e1 = e2
  | _, _ => False
  end.
Proof.
  unfold __init__.
  destruct vocab_file as [v|];
    [| destruct (String.eqb _ "GPT2BPETokenizer");
       [| destruct (String.eqb _ "HFGPT2Tokenizer");
          [| destruct (String.eqb _ "CharLevelTokenizer")]]];
    try reflexivity;
    intros st; repeat split; reflexivity.
Qed.

(* ================================================================== *)
(** ** What a computation can emit *)

Section Emits.
Context {os : OS}.

Lemma emits_ret {A} P (a : A) : emits P (ret a).
Proof. intros st. exists []. split; [apply after_refl | constructor]. Qed.

Lemma emits_raise {A} P e : emits P (raise (A := A) e).
Proof. intros st. exists []. split; [apply after_refl | constructor]. Qed.

Lemma emits_lift {A} P (r : result A) : emits P (lift r).
Proof. intros st. exists []. split; [apply after_refl | constructor]. Qed.

Lemma emits_bind {A B} P (m : M A) (k : A -> M B) :
  emits P m -> (forall a, emits P (k a)) -> emits P (bind m k).
Proof.
  intros Hm Hk st. destruct (Hm st) as (evs & A1 & F1).
  unfold bind. destruct (m st) as [[a|e] st1]; cbn [snd] in *.
  - destruct (Hk a st1) as (evs2 & A2 & F2).
    exists (evs ++ evs2)%list. split.
    + exact (after_trans _ _ _ _ _ A1 A2).
    + apply Forall_app. now split.
  - exists evs. now split.
Qed.

Lemma emits_try_except {A} P (m : M A) (h : exn -> M A) :
  emits P m -> (forall e, emits P (h e)) -> emits P (try_except m h).
Proof.
  intros Hm Hh st. destruct (Hm st) as (evs & A1 & F1).
  unfold try_except. destruct (m st) as [[a|e] st1]; cbn [snd] in *.
  - exists evs. now split.
  - destruct (Hh e st1) as (evs2 & A2 & F2).
    exists (evs ++ evs2)%list. split.
    + exact (after_trans _ _ _ _ _ A1 A2).
    + apply Forall_app. now split.
Qed.

Lemma emits_if {A} P (b : bool) (m1 m2 : M A) :
  emits P m1 -> emits P m2 -> emits P (if b then m1 else m2).
Proof. now destruct b. Qed.

Lemma emits_makedirs (P : Event -> Prop) p : P (EvMakedirs p) -> emits P (makedirs p).
Proof.
  intros HP st. exists [EvMakedirs p]. split; [|now repeat constructor].
  destruct (makedirs_run p st) as (st' & E & A). now rewrite E.
Qed.

Lemma emits_system (P : Event -> Prop) cmd :
  (forall rc, P (EvSystem cmd rc)) -> emits P (system cmd).
Proof.
  intros HP st. exists [EvSystem cmd (snd (os_system (st_fs st) cmd))].
  split; [|repeat constructor; apply HP].
  destruct (system_run cmd st) as (st' & E & A). rewrite E. exact A.
Qed.

Lemma emits_zipfile_write (P : Event -> Prop) p ms :
  P (EvZip p ms) -> emits P (zipfile_write p ms).
Proof.
  intros HP st. pose proof (zipfile_write_run p ms st) as H.
  destruct (zip_write (st_fs st) p ms) as [f|e].
  - destruct H as (st' & E & A). exists [EvZip p ms].
    split; [now rewrite E | now repeat constructor].
  - rewrite H. exists []. split; [apply after_refl | constructor].
Qed.

Lemma emits_isdir P p : emits P (isdir p).
Proof. intros st. exists []. split; [apply after_refl | constructor]. Qed.

Lemma emits_isfile P p : emits P (isfile p).
Proof. intros st. exists []. split; [apply after_refl | constructor]. Qed.

Lemma emits_listdir P p : emits P (listdir p).
Proof. intros st. exists []. split; [apply after_refl | constructor]. Qed.

Lemma emits_iter {A} P (o : option (list A)) : emits P (iter o).
Proof. destruct o; [apply emits_ret | apply emits_raise]. Qed.

Lemma emits_for_each {A} P (xs : list A) (body : A -> M unit) :
  (forall x, emits P (body x)) -> emits P (for_each xs body).
Proof.
  intros Hb. induction xs as [|x xs IH]; cbn [for_each].
  - apply emits_ret.
  - apply emits_bind; [apply Hb | intros _; exact IH].
Qed.

End Emits.

Create HintDb emits.
#[local] Hint Resolve emits_ret emits_raise emits_lift emits_isdir emits_isfile
  emits_listdir emits_iter : emits.

Section EmitsMethods.
Context {os : OS}.

Lemma emits_download d : emits (event_of d) (download d).
Proof.
  unfold download.
  apply emits_bind; [now apply emits_makedirs | intros _].
  apply emits_bind; [auto with emits | intros us].
  apply emits_for_each. intros url. unfold fetch.
  apply emits_try_except; [| auto with emits].
  apply emits_bind.
  - apply emits_system. intros rc. left. now exists url.
  - intros rc. apply emits_if; auto with emits.
Qed.

Lemma emits_tokenize d j : emits (event_of d) (tokenize d j).
Proof.
  unfold tokenize. apply emits_bind.
  - destruct j; [auto with emits|].
    apply emits_bind; auto with emits.
  - intros input. apply emits_bind; [| auto with emits].
    apply emits_system. intros rc. right. now exists input.
Qed.

Lemma emits_customdataset_from_text d :
  emits (event_of d) (customdataset_from_text d).
Proof.
  unfold customdataset_from_text.
  apply emits_bind; [now apply emits_makedirs | intros _].
  apply emits_bind; [auto with emits | intros entries].
  destruct (filter _ entries); [auto with emits|].
  now apply emits_zipfile_write.
Qed.

Lemma emits_prepare d : emits (event_of d) (prepare d).
Proof.
  unfold prepare. repeat apply emits_if.
  - apply emits_bind; [apply emits_customdataset_from_text | intros _].
    apply emits_tokenize.
  - apply emits_bind; [apply emits_download | intros _; apply emits_tokenize].
  - apply emits_bind; [unfold exists_; auto with emits | intros present].
    apply emits_bind; [| intros _; apply emits_tokenize].
    apply emits_if; [apply emits_download | auto with emits].
Qed.

End EmitsMethods.

(* ================================================================== *)
(** ** Substrings of the transform command *)

Lemma prefix_app (s a b : string) :
  String.prefix s a = true -> String.prefix s (a ++ b) = true.
Proof.
  revert a. induction s as [|c s IH]; intros a H.
  { destruct (a ++ b); reflexivity. }
  destruct a as [|x a]; [discriminate H|].
  cbn [append String.prefix] in *.
  destruct (ascii_dec c x); [now apply IH | discriminate H].
Qed.

Lemma contains_app_r (a b s : string) :
  contains a s = true -> contains (a ++ b) s = true.
Proof.
  induction a as [|x a IH]; cbn [contains append]; intros H.
  - rewrite orb_false_r in H. destruct s; [|discriminate H].
    destruct b; reflexivity.
  - apply orb_true_iff in H. apply orb_true_iff. destruct H as [H|H].
    + left. exact (prefix_app s (String x a) b H).
    + right. now apply IH.
Qed.

Lemma contains_app_l (a b s : string) :
  contains b s = true -> contains (a ++ b) s = true.
Proof.
  intros H. induction a as [|x a IH]; [exact H|].
  cbn [contains append]. rewrite IH. apply orb_true_r.
Qed.

(** The command line of a descriptor with one worker asks for one worker. *)
Lemma tokenize_cmd_one_worker {os : OS} (d : DataDownloader) (input : string) :
  num_workers d = 1%Z -> contains (tokenize_cmd d input) "--workers 1 " = true.
Proof.
  intros H1. unfold tokenize_cmd. cbv zeta. rewrite H1.
  destruct (num_docs (cls d)), (ftfy (cls d));
    [do 2 apply contains_app_r | apply contains_app_r
     | apply contains_app_r | idtac];
    do 20 apply contains_app_l; reflexivity.
Qed.

(* ================================================================== *)
(** ** Dispatch *)

Section DispatchRuns.
Context {os : OS}.

Lemma bind_assoc {A B C} (m : M A) (k : A -> M B) (h : B -> M C) (st : State) :
  bind (bind m k) h st = bind m (fun a => bind (k a) h) st.
Proof. unfold bind. destruct (m st) as [[a|e] st']; reflexivity. Qed.

(** One optional fetch of a shared file. *)
Lemma optional_fetch_run (path cmd : string) (st : State) :
  exists st' ev,
    (present <- isfile path ;;
     (if negb present then _ <- system cmd ;; ret tt else ret tt)) st = (Ok tt, st') /\
    after st ev st' /\
    (ev = [] \/ exists rc, ev = [EvSystem cmd rc]) /\
    (ev = [] <-> os_path_isfile (st_fs st) path = true).
Proof.
  unfold bind at 1, isfile.
  destruct (os_path_isfile (st_fs st) path) eqn:Hp; cbn [negb].
  - exists st, []. split; [reflexivity|]. split; [apply after_refl|].
    split; [now left | now split].
  - destruct (system_run cmd st) as (st' & E & A).
    exists st', [EvSystem cmd (snd (os_system (st_fs st) cmd))].
    split; [unfold bind, ret; now rewrite E|]. split; [exact A|].
    split; [right; now eexists | split; discriminate].
Qed.

Lemma maybe_download_run (tokenizer_type : option string) (root : string) (st : State) :
  exists st' ev_v ev_m,
    maybe_download_gpt2_tokenizer_data tokenizer_type root st = (Ok tt, st') /\
    after st (ev_v ++ ev_m) st' /\
    shared_asset_fetches tokenizer_type root (st_fs st) ev_v ev_m.
Proof.
  unfold maybe_download_gpt2_tokenizer_data, shared_asset_fetches.
  destruct (wants_gpt2_files tokenizer_type).
  - destruct (optional_fetch_run (GPT2_VOCAB_FP root) (vocab_wget root) st)
      as (st1 & ev_v & R1 & A1 & S1 & P1).
    destruct (optional_fetch_run (GPT2_MERGE_FP root) (merge_wget root) st1)
      as (st2 & ev_m & R2 & A2 & S2 & P2).
    exists st2, ev_v, ev_m. split; [|split].
    + rewrite <- bind_assoc. unfold bind at 1. rewrite R1. exact R2.
    + exact (after_trans _ _ _ _ _ A1 A2).
    + split; [exact S1 | split; [exact S2 | split; [discriminate|]]].
      intros _. split; [exact P1|].
      destruct A1 as [_ F1]. now rewrite <- F1.
  - exists st, [], []. split; [reflexivity|]. split; [apply after_refl|].
    split; [now left | split; [now left | split; [now split | discriminate]]].
Qed.

(** The steps [prepare_dataset] takes before it looks the name up. *)
Lemma entry_run (tokenizer_type : option string) (root : string) (st : State) :
  exists st' ev_v ev_m,
    (makedirs root ;; maybe_download_gpt2_tokenizer_data tokenizer_type root) st
      = (Ok tt, st') /\
    after st (EvMakedirs root :: ev_v ++ ev_m) st' /\
    shared_asset_fetches tokenizer_type root (os_makedirs (st_fs st) root) ev_v ev_m.
Proof.
  destruct (makedirs_run root st) as (st1 & E & A).
  destruct (maybe_download_run tokenizer_type root st1) as (st' & ev_v & ev_m & R & A' & S).
  exists st', ev_v, ev_m. split; [|split].
  - unfold bind. now rewrite E.
  - exact (after_cons _ _ _ _ _ A A').
  - destruct A as [_ F]. rewrite F in S. exact S.
Qed.

(** [prepare_dataset] is its entry steps followed by the dispatch on the
    registry entry. *)
Lemma prepare_dataset_unfold (dataset_name : string)
    (tokenizer_type data_dir vocab_file merge_file : option string)
    (force_redownload : option bool) (num_workers : option Z) (st : State) :
  let root :=
    match data_dir with None => environ_get "DATA_DIR" "./data" | Some r => r end in
  prepare_dataset dataset_name tokenizer_type data_dir vocab_file merge_file
    force_redownload num_workers st =
  ((makedirs root ;; maybe_download_gpt2_tokenizer_data tokenizer_type root) ;;
   match dict_get DATA_DOWNLOADERS (str_lower (split0 dataset_name)) with
   | None => raise (not_recognized dataset_name)
   | Some Pass => ret tt
   | Some (Class_ c) =>
       d <- lift (__init__ c tokenizer_type merge_file vocab_file (Some root)
                       force_redownload (Some 1%Z)
                       (if String.eqb (split0 dataset_name) "customdataset"
                        then Some dataset_name else None)) ;;
       prepare d
   end) st.
Proof. intros root. rewrite bind_assoc. reflexivity. Qed.

End DispatchRuns.

(** C3, as the code has it.  With the key [pass], [prepare_dataset] takes
    its entry steps only: it creates the storage root, fetches whichever of
    the two shared tokenizer files is missing when the tokenizer is the
    byte-pair one or unset, and returns.  No dataset directory is created,
    no descriptor is built, no dataset is fetched or transformed. *)
Theorem prepare_dataset_pass_builds_nothing {os : OS} (dataset_name : string)
    (tokenizer_type data_dir vocab_file merge_file : option string)
    (force_redownload : option bool) (num_workers : option Z) (st : State) :
  str_lower (split0 dataset_name) = "pass" ->
  let root :=
    match data_dir with None => environ_get "DATA_DIR" "./data" | Some r => r end in
  exists st' ev_v ev_m,
    prepare_dataset dataset_name tokenizer_type data_dir vocab_file merge_file
      force_redownload num_workers st = (Ok tt, st') /\
    after st (EvMakedirs root :: ev_v ++ ev_m) st' /\
    shared_asset_fetches tokenizer_type root (os_makedirs (st_fs st) root) ev_v ev_m.
Proof.
  intros Hkey root.
  destruct (entry_run tokenizer_type root st) as (st' & ev_v & ev_m & R & A & S).
  exists st', ev_v, ev_m. split; [|split; [exact A | exact S]].
  rewrite prepare_dataset_unfold. fold root. rewrite Hkey.
  unfold bind at 1. rewrite R. reflexivity.
Qed.

(** The tokenizer is character-level: only the storage root is created. *)
Lemma prepare_dataset_pass_builds_nothing_witness :
  @str_lower os_ok (split0 "Pass/dry-run") = "pass" /\
  exists st' ev_v ev_m,
    prepare_dataset "Pass/dry-run" (Some "CharLevelTokenizer") None None None None None
      (mkState (os := os_ok) fresh_disk []) = (Ok tt, st') /\
    after (mkState (os := os_ok) fresh_disk []) (EvMakedirs "./data" :: ev_v ++ ev_m) st' /\
    shared_asset_fetches (os := os_ok) (Some "CharLevelTokenizer") "./data"
      (@os_makedirs os_ok fresh_disk "./data") ev_v ev_m.
Proof.
  split; [reflexivity|].
  apply (prepare_dataset_pass_builds_nothing (os := os_ok) "Pass/dry-run"
           (Some "CharLevelTokenizer") None None None None None
           (mkState (os := os_ok) fresh_disk [])).
  reflexivity.
Defined.

(** On an empty disk with the default tokenizer, the key [pass] creates the
    storage root and runs two [wget] processes. *)
Lemma prepare_dataset_pass_has_effects :
  outcome (os := os_ok) (prepare_dataset "pass" None None None None None None) fresh_disk
    = Ok tt /\
  events (os := os_ok) (prepare_dataset "pass" None None None None None None) fresh_disk
    = [EvMakedirs "./data";
       EvSystem (vocab_wget "./data") 0;
       EvSystem (merge_wget "./data") 0] /\
  count is_makedirs
    (events (os := os_ok) (prepare_dataset "pass" None None None None None None) fresh_disk)
    = 1%nat /\
  count is_process
    (events (os := os_ok) (prepare_dataset "pass" None None None None None None) fresh_disk)
    = 2%nat.
Proof. repeat split; vm_compute; reflexivity. Qed.

(** C4, as the code has it.  When the key (the name up to its first
    separator, in lower case) is not in the registry, [prepare_dataset]
    raises [NotImplementedError] with a message that quotes the name and
    lists the known keys; before that it has taken its entry steps (the
    storage root is created, missing shared tokenizer files are fetched)
    and nothing else. *)
Theorem prepare_dataset_unknown_key {os : OS} (dataset_name : string)
    (tokenizer_type data_dir vocab_file merge_file : option string)
    (force_redownload : option bool) (num_workers : option Z) (st : State) :
  dict_get DATA_DOWNLOADERS (str_lower (split0 dataset_name)) = None ->
  let root :=
    match data_dir with None => environ_get "DATA_DIR" "./data" | Some r => r end in
  exists st' ev_v ev_m,
    prepare_dataset dataset_name tokenizer_type data_dir vocab_file merge_file
      force_redownload num_workers st =
      (Raise (NotImplementedError
                ("Dataset " ++ dquote ++ dataset_name ++ dquote ++
                 " not recognized - please choose from " ++ known_keys)), st') /\
    after st (EvMakedirs root :: ev_v ++ ev_m) st' /\
    shared_asset_fetches tokenizer_type root (os_makedirs (st_fs st) root) ev_v ev_m.
Proof.
  intros Hkey root.
  destruct (entry_run tokenizer_type root st) as (st' & ev_v & ev_m & R & A & S).
  exists st', ev_v, ev_m. split; [|split; [exact A | exact S]].
  rewrite prepare_dataset_unfold. fold root. rewrite Hkey.
  unfold bind at 1. rewrite R. reflexivity.
Qed.

(** An unregistered name, with both tokenizer files already in place. *)
Lemma prepare_dataset_unknown_key_witness :
  dict_get DATA_DOWNLOADERS (@str_lower os_ok (split0 "ImageNet/val")) = None /\
  exists st' ev_v ev_m,
    prepare_dataset "ImageNet/val" None (Some "/srv") None None None None
      (mkState (os := os_ok)
         (mkSimFS ["/srv"] ["/srv//gpt2-vocab.json"; "/srv/gpt2-merges.txt"] []) []) =
      (Raise (NotImplementedError
                ("Dataset " ++ dquote ++ "ImageNet/val" ++ dquote ++
                 " not recognized - please choose from " ++ known_keys)), st') /\
    after (mkState (os := os_ok)
             (mkSimFS ["/srv"] ["/srv//gpt2-vocab.json"; "/srv/gpt2-merges.txt"] []) [])
          (EvMakedirs "/srv" :: ev_v ++ ev_m) st' /\
    shared_asset_fetches (os := os_ok) None "/srv"
      (@os_makedirs os_ok
         (mkSimFS ["/srv"] ["/srv//gpt2-vocab.json"; "/srv/gpt2-merges.txt"] []) "/srv")
      ev_v ev_m.
Proof.
  split; [reflexivity|].
  apply (prepare_dataset_unknown_key (os := os_ok) "ImageNet/val" None (Some "/srv")
           None None None None).
  reflexivity.
Defined.

(** On an empty disk, an unknown name still creates the storage root and
    runs two [wget] processes before the error is raised. *)
Lemma prepare_dataset_unknown_key_has_effects :
  dict_get DATA_DOWNLOADERS (@str_lower os_ok (split0 "imagenet")) = None /\
  outcome (os := os_ok) (prepare_dataset "imagenet" None None None None None None)
    fresh_disk = Raise (not_recognized "imagenet") /\
  events (os := os_ok) (prepare_dataset "imagenet" None None None None None None)
    fresh_disk
    = [EvMakedirs "./data";
       EvSystem (vocab_wget "./data") 0;
       EvSystem (merge_wget "./data") 0] /\
  count is_makedirs
    (events (os := os_ok) (prepare_dataset "imagenet" None None None None None None)
       fresh_disk) = 1%nat /\
  count is_fetch
    (events (os := os_ok) (prepare_dataset "imagenet" None None None None None None)
       fresh_disk) = 2%nat.
Proof. repeat split; vm_compute; reflexivity. Qed.

Section Workers.
Context {os : OS}.

Lemma emits_weaken {A} (P Q : Event -> Prop) (m : M A) :
  (forall e, P e -> Q e) -> emits P m -> emits Q m.
Proof.
  intros HPQ Hm st. destruct (Hm st) as (evs & A1 & F).
  exists evs. split; [exact A1|].
  exact (Forall_impl Q HPQ F).
Qed.

Lemma emits_bind_lift {A B} (P : Event -> Prop) (r : result A) (k : A -> M B) :
  (forall a, r = Ok a -> emits P (k a)) -> emits P (bind (lift r) k).
Proof.
  intros Hk. destruct r as [a|e].
  - intros st. exact (Hk a eq_refl st).
  - intros st. exists []. split; [apply after_refl | constructor].
Qed.

Lemma init_fields (c : DownloaderClass) tokenizer_type merge_file vocab_file data_dir
    force_redownload n dataset_name d :
  __init__ c tokenizer_type merge_file vocab_file data_dir force_redownload (Some n)
       dataset_name = Ok d ->
  cls d = c /\ num_workers d = n.
Proof.
  unfold __init__.
  destruct vocab_file as [v|];
    [| destruct (String.eqb _ "GPT2BPETokenizer");
       [| destruct (String.eqb _ "HFGPT2Tokenizer");
          [| destruct (String.eqb _ "CharLevelTokenizer")]]];
    intros H; inversion H; subst; split; reflexivity.
Qed.

Lemma event_of_one_worker (d : DataDownloader) (e : Event) :
  num_workers d = 1%Z -> event_of d e -> one_worker_transform (cls d) e.
Proof.
  intros H1 He Ht. destruct e as [p | cmd rc | p ms]; try discriminate Ht.
  destruct He as [[url ->] | [input ->]]; [discriminate Ht|].
  exists d, input, rc. split; [reflexivity|]. split; [reflexivity|].
  split; [exact H1 | now apply tokenize_cmd_one_worker].
Qed.

Lemma emits_entry (c : DownloaderClass) (tokenizer_type : option string) (root : string) :
  emits (one_worker_transform c)
        (makedirs root ;; maybe_download_gpt2_tokenizer_data tokenizer_type root).
Proof.
  apply emits_bind; [apply emits_makedirs; discriminate | intros _].
  unfold maybe_download_gpt2_tokenizer_data.
  apply emits_if; [| auto with emits].
  apply emits_bind; [auto with emits | intros v].
  apply emits_bind.
  - apply emits_if; [| auto with emits].
    apply emits_bind; [| auto with emits].
    apply emits_system. intros rc H. discriminate H.
  - intros _. apply emits_bind; [auto with emits | intros m].
    apply emits_if; [| auto with emits].
    apply emits_bind; [| auto with emits].
    apply emits_system. intros rc H. discriminate H.
Qed.

End Workers.

Section LastTransform.
Context {os : OS}.

Lemma is_transform_tokenize_cmd (d : DataDownloader) (input : string) (rc : Z) :
  is_transform (EvSystem (tokenize_cmd d input) rc) = true.
Proof.
  unfold tokenize_cmd. destruct (num_docs (cls d)), (ftfy (cls d)); reflexivity.
Qed.

Lemma bind_ok_inv {A B} (m : M A) (k : A -> M B) (st st' : State) (b : B) :
  bind m k st = (Ok b, st') ->
  exists a st1, m st = (Ok a, st1) /\ k a st1 = (Ok b, st').
Proof.
  unfold bind. destruct (m st) as [[a|e] st1]; intros H; [| discriminate H].
  now exists a, st1.
Qed.

Lemma tokenize_ok_inv (d : DataDownloader) (j : option string) (st st' : State) :
  tokenize d j st = (Ok tt, st') ->
  exists input rc, after st [EvSystem (tokenize_cmd d input) rc] st'.
Proof.
  intros H. destruct j as [p|].
  - destruct (tokenize_explicit_run d p st) as (st2 & R & A).
    rewrite R in H. injection H as <-. exists p. eexists. exact A.
  - destruct (urls (cls d)) as [us|] eqn:Hu.
    + destruct (tokenize_default_run d us st Hu) as (st2 & R & A).
      rewrite R in H. injection H as <-. exists (joined_inputs d us). eexists. exact A.
    + unfold tokenize, bind in H. rewrite Hu in H. discriminate H.
Qed.

(** A computation followed by [tokenize] that returns normally ends with
    one run of the transform. *)
Lemma then_tokenize {A} (P : Event -> Prop) (m : M A) (d : DataDownloader)
    (j : option string) (st st' : State) :
  emits P m -> (m ;; tokenize d j) st = (Ok tt, st') ->
  exists evs0 input rc,
    after st (evs0 ++ [EvSystem (tokenize_cmd d input) rc]) st' /\ Forall P evs0.
Proof.
  intros Hm H. apply bind_ok_inv in H. destruct H as (a & st1 & Rm & Rt).
  destruct (Hm st) as (evs0 & A0 & F0). rewrite Rm in A0. cbn [snd] in A0.
  destruct (tokenize_ok_inv d j st1 st' Rt) as (input & rc & A1).
  exists evs0, input, rc. split; [| exact F0].
  exact (after_trans _ _ _ _ _ A0 A1).
Qed.

Lemma download_runs_no_transform (d : DataDownloader) :
  emits (fun e => is_transform e = false) (download d).
Proof.
  unfold download.
  apply emits_bind; [now apply emits_makedirs | intros _].
  apply emits_bind; [auto with emits | intros us].
  apply emits_for_each. intros url. unfold fetch.
  apply emits_try_except; [| auto with emits].
  apply emits_bind; [now apply emits_system | intros rc].
  apply emits_if; auto with emits.
Qed.

Lemma packaging_runs_no_transform (d : DataDownloader) :
  emits (fun e => is_transform e = false) (customdataset_from_text d).
Proof.
  unfold customdataset_from_text.
  apply emits_bind; [now apply emits_makedirs | intros _].
  apply emits_bind; [auto with emits | intros entries].
  destruct (filter _ entries); [auto with emits|].
  now apply emits_zipfile_write.
Qed.

Lemma entry_runs_no_transform (tokenizer_type : option string) (root : string) :
  emits (fun e => is_transform e = false)
        (makedirs root ;; maybe_download_gpt2_tokenizer_data tokenizer_type root).
Proof.
  apply emits_bind; [now apply emits_makedirs | intros _].
  unfold maybe_download_gpt2_tokenizer_data.
  apply emits_if; [| auto with emits].
  apply emits_bind; [auto with emits | intros v].
  apply emits_bind.
  - apply emits_if; [| auto with emits].
    apply emits_bind; [now apply emits_system | auto with emits].
  - intros _. apply emits_bind; [auto with emits | intros m].
    apply emits_if; [| auto with emits].
    apply emits_bind; [now apply emits_system | auto with emits].
Qed.

(** A run of [prepare] that returns normally ends with one run of the
    transform on the command line of the descriptor, and ran it only
    then. *)
Lemma prepare_ok_ends_with_transform (d : DataDownloader) (st st' : State) :
  prepare d st = (Ok tt, st') ->
  exists evs0 input rc,
    after st (evs0 ++ [EvSystem (tokenize_cmd d input) rc]) st' /\
    Forall (fun e => is_transform e = false) evs0.
Proof.
  unfold prepare. destruct (String.eqb (name (cls d)) "customdataset").
  - apply then_tokenize. apply packaging_runs_no_transform.
  - destruct (_force_redownload d).
    + apply then_tokenize. apply download_runs_no_transform.
    + rewrite <- (bind_assoc (exists_ d)
                    (fun present => if negb present then download d else ret tt)
                    (fun _ => tokenize d None)).
      apply then_tokenize.
      apply emits_bind; [unfold exists_; auto with emits | intros present].
      apply emits_if; [apply download_runs_no_transform | auto with emits].
Qed.

End LastTransform.

(** C9. For a name whose key is registered to a class, the worker count
    the caller passes is not used: [prepare_dataset] is the same
    computation for every value of it, it builds the descriptor with
    [num_workers = 1], and every run of the transform it makes carries the
    command line of a descriptor with one worker (it contains
    [--workers 1]).  Every call that returns normally did run the
    transform, once, as its last effect, on the command line of the
    descriptor built with one worker. *)
Theorem prepare_dataset_forces_one_worker {os : OS} (dataset_name : string)
    (tokenizer_type data_dir vocab_file merge_file : option string)
    (force_redownload : option bool) (num_workers : option Z)
    (c : DownloaderClass) (st : State) :
  dict_get DATA_DOWNLOADERS (str_lower (split0 dataset_name)) = Some (Class_ c) ->
  let root :=
    match data_dir with None => environ_get "DATA_DIR" "./data" | Some r => r end in
  let run n :=
    prepare_dataset dataset_name tokenizer_type data_dir vocab_file merge_file
      force_redownload n in
  let built :=
    __init__ c tokenizer_type merge_file vocab_file (Some root) force_redownload
             (Some 1%Z)
             (if String.eqb (split0 dataset_name) "customdataset"
              then Some dataset_name else None) in
  (forall n, run n st = run num_workers st) /\
  run num_workers st =
    ((makedirs root ;; maybe_download_gpt2_tokenizer_data tokenizer_type root) ;;
     d <- lift built ;; prepare d) st /\
  (exists evs,
    after st evs (snd (run num_workers st)) /\
    Forall (one_worker_transform c) evs) /\
  (forall st', run num_workers st = (Ok tt, st') ->
     exists d evs0 input rc,
       built = Ok d /\ _num_workers d = 1%Z /\
       after st (evs0 ++ [EvSystem (tokenize_cmd d input) rc]) st' /\
       Forall (fun e => is_transform e = false) evs0 /\
       is_transform (EvSystem (tokenize_cmd d input) rc) = true /\
       contains (tokenize_cmd d input) "--workers 1 " = true).
Proof.
  intros Hkey root run built.
  assert (Hrun : run num_workers st =
    ((makedirs root ;; maybe_download_gpt2_tokenizer_data tokenizer_type root) ;;
     d <- lift built ;; prepare d) st).
  { unfold run. rewrite prepare_dataset_unfold. fold root. now rewrite Hkey. }
  split; [reflexivity|]. split; [exact Hrun|]. split.
  - rewrite Hrun. clear Hrun. revert st.
    change (emits (one_worker_transform c)
      ((makedirs root ;; maybe_download_gpt2_tokenizer_data tokenizer_type root) ;;
       d <- lift built ;; prepare d)).
    apply emits_bind; [apply emits_entry | intros _].
    apply emits_bind_lift. intros d Hinit.
    destruct (init_fields _ _ _ _ _ _ _ _ _ Hinit) as [<- H1].
    apply (emits_weaken (event_of d)); [| apply emits_prepare].
    intros e. now apply event_of_one_worker.
  - intros st' Hok. rewrite Hrun in Hok.
    apply bind_ok_inv in Hok. destruct Hok as (u & st1 & Re & Rp).
    destruct (entry_runs_no_transform tokenizer_type root st) as (evs1 & A1 & F1).
    rewrite Re in A1. cbn [snd] in A1.
    apply bind_ok_inv in Rp. destruct Rp as (d & st2 & Rl & Rp).
    unfold lift in Rl. injection Rl as Hb <-.
    destruct (init_fields _ _ _ _ _ _ _ _ _ Hb) as [_ H1].
    destruct (prepare_ok_ends_with_transform d st1 st' Rp)
      as (evs2 & input & rc & A2 & F2).
    exists d, (evs1 ++ evs2)%list, input, rc.
    split; [exact Hb|]. split; [exact H1|]. split.
    { rewrite <- app_assoc. exact (after_trans _ _ _ _ _ A1 A2). }
    split; [apply Forall_app; now split|].
    split; [apply is_transform_tokenize_cmd | now apply tokenize_cmd_one_worker].
Qed.

(** The caller asks for eight workers on [Enron]: the call returns
    normally and its last effect is the transform with one worker. *)
Lemma prepare_dataset_forces_one_worker_witness :
  let st := mkState (os := os_ok) fresh_disk [] in
  let run := prepare_dataset "Enron" None None None None None (Some 8%Z) st in
  dict_get DATA_DOWNLOADERS (@str_lower os_ok (split0 "Enron")) = Some (Class_ Enron) /\
  fst run = Ok tt /\
  exists d evs0 input rc,
    _num_workers d = 1%Z /\
    after st (evs0 ++ [EvSystem (tokenize_cmd d input) rc]) (snd run) /\
    Forall (fun e => is_transform e = false) evs0 /\
    is_transform (EvSystem (tokenize_cmd d input) rc) = true /\
    contains (tokenize_cmd d input) "--workers 1 " = true.
Proof.
  intros st run. split; [reflexivity|]. split; [vm_compute; reflexivity|].
  destruct (proj2 (proj2 (proj2
    (prepare_dataset_forces_one_worker (os := os_ok) "Enron" None None None None None
       (Some 8%Z) Enron st eq_refl))) (snd run))
    as (d & evs0 & input & rc & _ & H).
  - vm_compute. reflexivity.
  - exists d, evs0, input, rc. exact H.
Defined.

(** The end-to-end run of [enron] on an empty disk: the storage root, the
    two shared tokenizer files, the dataset directory, the single source,
    and the transform with one worker although eight were asked for. *)
Example prepare_dataset_enron_run :
  events (os := os_ok)
    (prepare_dataset "enron" None None None None None (Some 8%Z)) fresh_disk =
    [EvMakedirs "./data";
     EvSystem (vocab_wget "./data") 0;
     EvSystem (merge_wget "./data") 0;
     EvMakedirs "./data/enron";
     EvSystem "wget http://eaidata.bmk.sh/data/enron_emails.jsonl.zst -O ./data/enron/enron_emails.jsonl.zst" 0;
     EvSystem "python tools/datasets/preprocess_data.py             --input ./data/enron/enron_emails.jsonl.zst             --output-prefix ./data/enron/enron             --vocab ./data/gpt2-vocab.json             --dataset-impl mmap             --tokenizer-type GPT2BPETokenizer             --merge-file ./data/gpt2-merges.txt             --append-eod             --workers 1 --num-docs 517401 " 0].
Proof. vm_compute. reflexivity. Qed.

(* ================================================================== *)
(** ** The registry as data *)

Lemma append_inv_head (p a b : string) : p ++ a = p ++ b -> a = b.
Proof.
  induction p as [|c p IH]; cbn [append]; intros H; [exact H|].
  injection H as H. now apply IH.
Qed.

Lemma basename_has_no_sep (p : string) : has_sep (os_path_basename p) = false.
Proof.
  induction p as [|c p IH]; [reflexivity|].
  cbn [os_path_basename].
  destruct (has_sep p) eqn:Hp; [exact IH|].
  destruct (Ascii.eqb c "/") eqn:Hc; [exact Hp|].
  cbn [has_sep]. now rewrite Hc, Hp.
Qed.

Lemma split0_no_sep (s : string) : has_sep s = false -> split0 s = s.
Proof.
  induction s as [|c s IH]; cbn [has_sep split0]; intros H; [reflexivity|].
  apply orb_false_iff in H. destruct H as [Hc Hs].
  rewrite Hc. now rewrite (IH Hs).
Qed.

Lemma split0_before_sep (s rest : string) :
  has_sep s = false -> split0 (s ++ "/" ++ rest) = s.
Proof.
  change ("/" ++ rest) with (String "/" rest).
  induction s as [|c s IH]; cbn [has_sep split0 append]; intros H; [reflexivity|].
  apply orb_false_iff in H. destruct H as [Hc Hs].
  rewrite Hc. now rewrite (IH Hs).
Qed.

(** What [os.path.join] puts in front of a relative second argument
    depends on the first argument only. *)
Lemma join_is_prefixing (a : string) :
  exists pre, forall b, startswith b "/" = false -> os_path_join a b = pre ++ b.
Proof.
  unfold os_path_join.
  destruct (String.eqb a "" || endswith a "/").
  - exists a. intros b Hb. now rewrite Hb.
  - exists (a ++ "/"). intros b Hb. rewrite Hb. now rewrite append_assoc.
Qed.

Lemma join_injective (a b1 b2 : string) :
  has_sep b1 = false -> has_sep b2 = false ->
  os_path_join a b1 = os_path_join a b2 -> b1 = b2.
Proof.
  intros H1 H2 H. destruct (join_is_prefixing a) as [pre Hpre].
  rewrite (Hpre b1 (has_sep_startswith _ H1)) in H.
  rewrite (Hpre b2 (has_sep_startswith _ H2)) in H.
  exact (append_inv_head _ _ _ H).
Qed.

Lemma mem_In (x : string) (l : list string) : mem x l = true <-> In x l.
Proof.
  unfold mem. rewrite existsb_exists. split.
  - intros (y & Hy & E). apply String.eqb_eq in E. now subst.
  - intros H. exists x. split; [exact H | apply String.eqb_refl].
Qed.

Lemma nodupb_NoDup (l : list string) : nodupb l = true -> NoDup l.
Proof.
  induction l as [|x l IH]; cbn [nodupb]; intros H; [constructor|].
  apply andb_true_iff in H. destruct H as [Hx Hl].
  constructor; [| now apply IH].
  intros Hin. apply mem_In in Hin. rewrite Hin in Hx. discriminate Hx.
Qed.

Lemma every_class_spec (p : DownloaderClass -> bool) (key : string) (c : DownloaderClass) :
  every_class p = true -> In (key, Class_ c) DATA_DOWNLOADERS -> p c = true.
Proof.
  unfold every_class. intros H Hin.
  exact (proj1 (forallb_forall _ _) H (key, Class_ c) Hin).
Qed.

Lemma every_two_classes_spec p k1 c1 k2 c2 :
  every_two_classes p = true ->
  In (k1, Class_ c1) DATA_DOWNLOADERS -> In (k2, Class_ c2) DATA_DOWNLOADERS ->
  p k1 c1 k2 c2 = true.
Proof.
  unfold every_two_classes. intros H H1 H2.
  pose proof (proj1 (forallb_forall _ _) H (k1, Class_ c1) H1) as H'.
  exact (proj1 (forallb_forall _ _) H' (k2, Class_ c2) H2).
Qed.

Lemma registry_basenames_checked : every_class distinct_basenames = true.
Proof. vm_compute. reflexivity. Qed.

Lemma registry_names_checked :
  every_class plain_name = true /\
  every_two_classes
    (fun k1 c1 k2 c2 => String.eqb k1 k2 || negb (String.eqb (name c1) (name c2)))
  = true.
Proof. split; vm_compute; reflexivity. Qed.

Lemma registry_lookup (k : string) (e : Entry) :
  In (k, e) DATA_DOWNLOADERS ->
  dict_get DATA_DOWNLOADERS k = Some e /\ has_sep k = false /\ lower k = k.
Proof.
  unfold DATA_DOWNLOADERS. cbn [In]. intros H.
  repeat (destruct H as [H|H];
          [inversion H; subst; split; [reflexivity | split; reflexivity] |]).
  contradiction.
Qed.

Lemma lower_ascii_keeps_other_bytes (c : ascii) :
  (nat_of_ascii (lower_ascii c) <? 128)%nat = true ->
  (nat_of_ascii c <? 128)%nat = true.
Proof.
  destruct c as [[] [] [] [] [] [] [] []]; vm_compute; intros H; exact H.
Qed.

(** A string whose lower-casing is ASCII text is ASCII text. *)
Lemma lower_ascii_only (s : string) :
  ascii_only (lower s) = true -> ascii_only s = true.
Proof.
  induction s as [|c s IH]; cbn [lower ascii_only]; intros H; [reflexivity|].
  apply andb_true_iff in H. destruct H as [Hc Hs].
  apply andb_true_iff. split; [now apply lower_ascii_keeps_other_bytes | now apply IH].
Qed.

Lemma registry_keys_ascii (k : string) (e : Entry) :
  In (k, e) DATA_DOWNLOADERS -> ascii_only k = true.
Proof.
  unfold DATA_DOWNLOADERS. cbn [In]. intros H.
  repeat (destruct H as [H|H]; [inversion H; subst; reflexivity |]).
  contradiction.
Qed.

(** X1. The registry is keyed without ambiguity and without regard to
    letter case or to what follows the first separator: a key occurs once,
    and every spelling [s] of it (a string that ASCII lower-casing turns
    into the key), alone or followed by [/rest], resolves to its entry. *)
Theorem registry_resolves_any_spelling {os : OS}
    (k : string) (e : Entry) (s rest : string) :
  In (k, e) DATA_DOWNLOADERS -> has_sep s = false -> lower s = k ->
  dict_get DATA_DOWNLOADERS (str_lower (split0 s)) = Some e /\
  dict_get DATA_DOWNLOADERS (str_lower (split0 (s ++ "/" ++ rest))) = Some e /\
  (forall e', In (k, e') DATA_DOWNLOADERS -> e' = e).
Proof.
  intros Hin Hs Hk. destruct (registry_lookup k e Hin) as (Hget & _ & _).
  assert (Ha : ascii_only s = true).
  { apply lower_ascii_only. rewrite Hk. exact (registry_keys_ascii k e Hin). }
  rewrite (split0_no_sep s Hs), (split0_before_sep s rest Hs).
  rewrite (str_lower_ascii s Ha), Hk.
  split; [exact Hget | split; [exact Hget|]].
  intros e' Hin'. destruct (registry_lookup k e' Hin') as (Hget' & _ & _).
  rewrite Hget in Hget'. now injection Hget'.
Qed.

Lemma registry_resolves_any_spelling_witness :
  dict_get DATA_DOWNLOADERS (@str_lower os_ok (split0 "HackerNews"))
    = Some (Class_ HackerNews) /\
  dict_get DATA_DOWNLOADERS (@str_lower os_ok (split0 ("HackerNews" ++ "/" ++ "2020/jan")))
    = Some (Class_ HackerNews) /\
  (forall e', In ("hackernews", e') DATA_DOWNLOADERS -> e' = Class_ HackerNews).
Proof.
  apply (registry_resolves_any_spelling (os := os_ok) "hackernews" (Class_ HackerNews)
           "HackerNews" "2020/jan").
  - unfold DATA_DOWNLOADERS. cbn [In]. do 12 right. left. reflexivity.
  - reflexivity.
  - reflexivity.
Defined.

(** X2. Two entries of the registry under different keys never share a
    dataset directory: whatever the storage root, the directory [download]
    creates and the directory [exists] looks for differ between them. *)
Theorem registered_datasets_have_distinct_directories
    (k1 k2 : string) (c1 c2 : DownloaderClass) (root : string) :
  In (k1, Class_ c1) DATA_DOWNLOADERS -> In (k2, Class_ c2) DATA_DOWNLOADERS ->
  k1 <> k2 ->
  os_path_join root (name c1) <> os_path_join root (name c2) /\
  root ++ "/" ++ name c1 <> root ++ "/" ++ name c2.
Proof.
  intros H1 H2 Hk.
  destruct registry_names_checked as [Hplain Hpair].
  pose proof (every_class_spec _ _ _ Hplain H1) as P1.
  pose proof (every_class_spec _ _ _ Hplain H2) as P2.
  pose proof (every_two_classes_spec _ _ _ _ _ Hpair H1 H2) as P12.
  unfold plain_name in P1, P2.
  apply andb_true_iff in P1, P2. destruct P1 as [P1 _], P2 as [P2 _].
  apply negb_true_iff in P1, P2.
  cbv beta in P12. apply orb_true_iff in P12. destruct P12 as [E|N].
  { apply String.eqb_eq in E. contradiction. }
  apply negb_true_iff, String.eqb_neq in N.
  split; intros H; apply N.
  - exact (join_injective root _ _ P1 P2 H).
  - apply append_inv_head in H. now apply (append_inv_head "/").
Qed.

Lemma registered_datasets_have_distinct_directories_witness :
  os_path_join "./data" (name Pile) <> os_path_join "./data" (name PileSubset) /\
  "./data" ++ "/" ++ name Pile <> "./data" ++ "/" ++ name PileSubset.
Proof.
  apply (registered_datasets_have_distinct_directories "pile" "pile_subset").
  - unfold DATA_DOWNLOADERS. cbn [In]. do 3 right. left. reflexivity.
  - unfold DATA_DOWNLOADERS. cbn [In]. do 2 right. left. reflexivity.
  - discriminate.
Defined.

(** X3. For a descriptor of a registered class, the files its sources are
    fetched into are pairwise distinct (no fetch overwrites another), and
    they are exactly the paths [tokenize] hands to the transform, in the
    order of the sources. *)
Theorem registered_sources_have_distinct_destinations
    (key : string) (d : DataDownloader) (us : list string) :
  In (key, Class_ (cls d)) DATA_DOWNLOADERS -> urls (cls d) = Some us ->
  NoDup (map (destination d) us) /\
  (forall u, wget_cmd d u = "wget " ++ u ++ " -O " ++ destination d u) /\
  joined_inputs d us = String.concat "," (map (destination d) us).
Proof.
  intros Hin Hu. split; [| split; reflexivity].
  pose proof (every_class_spec _ _ _ registry_basenames_checked Hin) as Hb.
  unfold distinct_basenames in Hb. rewrite Hu in Hb.
  apply nodupb_NoDup in Hb.
  unfold destination, os_path_join3.
  rewrite <- (map_map os_path_basename
                (os_path_join (os_path_join (base_dir d) (name (cls d))))).
  apply NoDup_map_NoDup_ForallPairs; [| exact Hb].
  intros b1 b2 Hb1 Hb2 E.
  apply in_map_iff in Hb1, Hb2.
  destruct Hb1 as (u1 & <- & _), Hb2 as (u2 & <- & _).
  exact (join_injective _ _ _ (basename_has_no_sep u1) (basename_has_no_sep u2) E).
Qed.

Lemma registered_sources_have_distinct_destinations_witness :
  let d := mkDownloader Pile "GPT2BPETokenizer" "/srv/gpt2-merges.txt"
             (Some "/srv/gpt2-vocab.json") "/srv" false 1 None in
  exists us,
    urls (cls d) = Some us /\ List.length us = 30%nat /\
    NoDup (map (destination d) us) /\
    nth 7 (map (destination d) us) "" = "/srv/pile/07.jsonl.zst".
Proof.
  intros d. eexists. split; [reflexivity|]. split; [reflexivity|]. split.
  - apply (registered_sources_have_distinct_destinations "pile" d).
    + unfold DATA_DOWNLOADERS. cbn [In]. do 3 right. left. reflexivity.
    + reflexivity.
  - vm_compute. reflexivity.
Defined.

(* ================================================================== *)
(** ** Presence of a dataset and repeated runs *)

Lemma join_plain (a b : string) :
  a <> "" -> endswith a "/" = false -> startswith b "/" = false ->
  os_path_join a b = a ++ "/" ++ b.
Proof.
  intros Ha He Hb. unfold os_path_join. rewrite Hb, He.
  apply String.eqb_neq in Ha. now rewrite Ha.
Qed.

Lemma startswith_sep (s : string) : startswith (String "/" s) "/" = true.
Proof. unfold startswith. cbn. now destruct s. Qed.

(** X4. The directory [exists] looks for is the directory [download]
    creates when the storage root is not empty and does not end with a
    separator.  With a trailing separator the two paths differ by a doubled
    separator; with an empty storage root [exists] looks at [/name], at the
    root of the file system, while [download] creates the relative
    [name]. *)
Theorem exists_and_download_paths (d : DataDownloader) :
  startswith (name (cls d)) "/" = false ->
  let looked_for := base_dir d ++ "/" ++ name (cls d) in
  let created := os_path_join (base_dir d) (name (cls d)) in
  (base_dir d <> "" -> endswith (base_dir d) "/" = false -> looked_for = created) /\
  (endswith (base_dir d) "/" = true ->
   created = base_dir d ++ name (cls d) /\ looked_for <> created) /\
  (base_dir d = "" ->
   created = name (cls d) /\ looked_for = "/" ++ name (cls d) /\ looked_for <> created).
Proof.
  intros Hn looked_for created. subst looked_for created.
  split; [| split].
  - intros Hb He. symmetry. now apply join_plain.
  - intros He. unfold os_path_join. rewrite Hn, He, orb_true_r.
    split; [reflexivity|]. intros H. apply append_inv_head in H.
    cbn in H. destruct (name (cls d)) as [|c n]; [discriminate H|].
    injection H as Hc _. subst c. now rewrite startswith_sep in Hn.
  - intros Hb. rewrite Hb. unfold os_path_join. rewrite Hn.
    split; [reflexivity | split; [reflexivity|]].
    cbn. intros H. destruct (name (cls d)) as [|c n]; [discriminate H|].
    injection H as Hc _. subst c. now rewrite startswith_sep in Hn.
Qed.

Lemma exists_and_download_paths_witness :
  let d := mkDownloader Enron "GPT2BPETokenizer" "m" (Some "v") "" false 1 None in
  os_path_join (base_dir d) (name (cls d)) = "enron" /\
  base_dir d ++ "/" ++ name (cls d) = "/enron" /\
  base_dir d ++ "/" ++ name (cls d) <> os_path_join (base_dir d) (name (cls d)).
Proof.
  intros d.
  exact (proj2 (proj2 (exists_and_download_paths d eq_refl)) eq_refl).
Defined.

Section Rerun.
Context {os : OS}.

Lemma prepare_standard_unfold (d : DataDownloader) (st : State) :
  name (cls d) <> "customdataset" ->
  prepare d st =
    if _force_redownload d
       || negb (os_path_isdir (st_fs st) (base_dir d ++ "/" ++ name (cls d)))
    then (download d ;; tokenize d None) st
    else tokenize d None st.
Proof.
  intros Hn. apply String.eqb_neq in Hn. unfold prepare. rewrite Hn.
  destruct (_force_redownload d); cbn [orb]; [reflexivity|].
  unfold exists_, isdir, bind, ret.
  destruct (os_path_isdir (st_fs st) (base_dir d ++ "/" ++ name (cls d)));
    reflexivity.
Qed.

(** A directory survives external processes, on an operating system where
    processes do not remove directories. *)
Lemma replay_processes_keep_dir (p : string) (evs : list Event) :
  (forall f cmd, os_path_isdir f p = true ->
                 os_path_isdir (fst (os_system f cmd)) p = true) ->
  Forall (fun e => is_process e = true) evs ->
  forall f, os_path_isdir f p = true -> os_path_isdir (replay f evs) p = true.
Proof.
  intros Hkeep Hevs. induction Hevs as [|e evs He _ IH]; intros f Hf; [exact Hf|].
  unfold replay. cbn [fold_left]. apply IH.
  destruct e; try discriminate He. cbn [apply_event]. now apply Hkeep.
Qed.

Lemma fetched_are_processes (d : DataDownloader) (us : list string) :
  Forall (fun e => is_process e = true) (fetched d us).
Proof. unfold fetched. apply Forall_forall. intros e He.
  apply in_map_iff in He. destruct He as (u & <- & _). reflexivity.
Qed.

End Rerun.

(** X5. A second run does not acquire, whatever happened in the first.
    On an operating system where [makedirs] makes the directory appear and
    processes do not remove it, after any run of [prepare] on a standard
    descriptor without forced refresh (also a run whose download failed
    half way), the next run of [prepare] fetches nothing: it runs the
    transform once and returns. *)
Theorem prepare_rerun_skips_acquisition {os : OS}
    (d : DataDownloader) (us : list string) (st : State) :
  (forall f p, os_path_isdir (os_makedirs f p) p = true) ->
  (forall f cmd p, os_path_isdir f p = true ->
                   os_path_isdir (fst (os_system f cmd)) p = true) ->
  name (cls d) <> "customdataset" ->
  urls (cls d) = Some us ->
  _force_redownload d = false ->
  base_dir d <> "" -> endswith (base_dir d) "/" = false ->
  startswith (name (cls d)) "/" = false ->
  let st1 := snd (prepare d st) in
  let cmd := tokenize_cmd d (joined_inputs d us) in
  exists st2,
    prepare d st1 = (Ok tt, st2) /\
    after st1 [EvSystem cmd (snd (os_system (st_fs st1) cmd))] st2.
Proof.
  intros Hmk Hkeep Hn Hu Hf Hb He Hs st1 cmd.
  set (dir := os_path_join (base_dir d) (name (cls d))).
  assert (Hdir : base_dir d ++ "/" ++ name (cls d) = dir)
    by (symmetry; now apply join_plain).
  assert (Hpresent : os_path_isdir (st_fs st1) dir = true).
  { subst st1. rewrite (prepare_standard_unfold d st Hn), Hf, Hdir. cbn [orb].
    destruct (os_path_isdir (st_fs st) dir) eqn:Hp; cbn [negb].
    - destruct (tokenize_default_run d us st Hu) as (st' & R & A).
      rewrite R. cbn [snd]. destruct A as [_ F]. rewrite F.
      apply (replay_processes_keep_dir dir); [intros; now apply Hkeep | | exact Hp].
      repeat constructor.
    - destruct (download_run d us st Hu)
        as (st' & [[R A] | (us1 & u & us2 & rc & _ & _ & R & A)]).
      + destruct (tokenize_default_run d us st' Hu) as (st'' & R' & A').
        unfold bind. rewrite R, R'. cbn [snd].
        destruct A as [_ F], A' as [_ F']. rewrite F', F.
        apply (replay_processes_keep_dir dir); [intros; now apply Hkeep | |].
        { repeat constructor. }
        unfold replay. cbn [fold_left apply_event].
        apply (replay_processes_keep_dir dir); [intros; now apply Hkeep | |].
        { apply fetched_are_processes. }
        apply Hmk.
      + unfold bind. rewrite R. cbn [snd]. destruct A as [_ F]. rewrite F.
        unfold replay. cbn [fold_left apply_event].
        apply (replay_processes_keep_dir dir); [intros; now apply Hkeep | |].
        { apply Forall_app. split; [apply fetched_are_processes | repeat constructor]. }
        apply Hmk. }
  rewrite (prepare_standard_unfold d st1 Hn), Hf, Hdir, Hpresent. cbn [orb negb].
  exact (tokenize_default_run d us st1 Hu).
Qed.

(** The network is down on an empty disk: the first run fails in the
    download, the second one goes straight to the transform. *)
Lemma prepare_rerun_skips_acquisition_witness :
  let d := enron_at false in
  let st1 := snd (prepare d (mkState (os := os_offline) fresh_disk [])) in
  outcome (os := os_offline) (prepare d) fresh_disk =
    Raise (download_error "http://eaidata.bmk.sh/data/enron_emails.jsonl.zst") /\
  exists st2,
    prepare d st1 = (Ok tt, st2) /\
    after st1
      [EvSystem (tokenize_cmd d "./data/enron/enron_emails.jsonl.zst")
         (snd (@os_system os_offline (st_fs st1)
                 (tokenize_cmd d "./data/enron/enron_emails.jsonl.zst")))] st2.
Proof.
  intros d st1. split; [vm_compute; reflexivity|].
  apply (prepare_rerun_skips_acquisition (os := os_offline) d
           ["http://eaidata.bmk.sh/data/enron_emails.jsonl.zst"]
           (mkState (os := os_offline) fresh_disk [])).
  - intros f p. cbn. unfold mem. cbn. now rewrite String.eqb_refl.
  - intros f cmd p H. exact H.
  - intros H. vm_compute in H. discriminate H.
  - reflexivity.
  - reflexivity.
  - discriminate.
  - reflexivity.
  - reflexivity.
Defined.

(* ================================================================== *)
(** ** The custom corpus and classes without sources *)

Lemma tokenize_cmd_is_not_fetch {os : OS} (d : DataDownloader) (input : string) (rc : Z) :
  is_fetch (EvSystem (tokenize_cmd d input) rc) = false.
Proof.
  unfold tokenize_cmd. destruct (num_docs (cls d)), (ftfy (cls d)); reflexivity.
Qed.

Lemma emits_custom_prepare {os : OS} (d : DataDownloader) :
  name (cls d) = "customdataset" ->
  emits (fun e => is_fetch e = false) (prepare d).
Proof.
  intros Hn. unfold prepare. rewrite Hn.
  change (String.eqb "customdataset" "customdataset") with true. cbv iota.
  apply emits_bind.
  - unfold customdataset_from_text.
    apply emits_bind; [now apply emits_makedirs | intros _].
    apply emits_bind; [auto with emits | intros entries].
    destruct (filter _ entries); [auto with emits|].
    now apply emits_zipfile_write.
  - intros _. unfold tokenize.
    apply emits_bind; [auto with emits | intros input].
    apply emits_bind; [| auto with emits].
    apply emits_system. intros rc. apply tokenize_cmd_is_not_fetch.
Qed.

(** X6. The custom corpus is never downloaded and never cached: for the
    custom descriptor [prepare] runs no fetch process, behaves the same
    whether a refresh is forced or not, and, when the storage root holds
    no qualifying text file, raises the assertion error after creating the
    dataset directory, with no archive written and no transform run. *)
Theorem custom_prepare_never_fetches {os : OS} (d : DataDownloader) (st : State) :
  name (cls d) = "customdataset" ->
  let dir := os_path_join (base_dir d) "customdataset" in
  (forall b, prepare (with_force b d) st = prepare d st) /\
  (exists evs,
      after st evs (snd (prepare d st)) /\ Forall (fun e => is_fetch e = false) evs) /\
  (filter qualifies (os_listdir (os_makedirs (st_fs st) dir) (base_dir d)) = [] ->
   exists st',
     prepare d st =
       (Raise (AssertionError ("No textfile found at " ++ base_dir d ++ ".")), st') /\
     after st [EvMakedirs dir] st').
Proof.
  intros Hn dir. split; [| split].
  - intros b. unfold prepare. cbn [with_force cls]. rewrite Hn.
    destruct d. reflexivity.
  - exact (emits_custom_prepare d Hn st).
  - intros Hnone.
    pose proof (customdataset_from_text_run d st) as Hrun.
    cbv zeta in Hrun. rewrite Hn in Hrun. fold dir in Hrun.
    rewrite Hnone in Hrun. destruct Hrun as (st' & R & A).
    exists st'. split; [| exact A].
    unfold prepare. rewrite Hn.
    change (String.eqb "customdataset" "customdataset") with true. cbv iota.
    unfold bind. now rewrite R.
Qed.

Lemma custom_prepare_never_fetches_witness :
  exists st',
    prepare custom_at (mkState (os := os_ok) fresh_disk []) =
      (Raise (AssertionError "No textfile found at ./data."), st') /\
    after (mkState (os := os_ok) fresh_disk []) [EvMakedirs "./data/customdataset"] st'.
Proof.
  apply (proj2 (proj2 (custom_prepare_never_fetches (os := os_ok) custom_at
                         (mkState (os := os_ok) fresh_disk []) eq_refl))).
  reflexivity.
Defined.

(** X7. A class that declares no sources ([urls] is [None], as for the
    custom corpus) cannot be acquired nor transformed by default:
    [download] creates the dataset directory and then raises [TypeError],
    and [tokenize] without an explicit input raises [TypeError] before any
    process is run. *)
Theorem no_sources_raise_type_error {os : OS} (d : DataDownloader) (st : State) :
  urls (cls d) = None ->
  let e := TypeError "'NoneType' object is not iterable" in
  (exists st',
      download d st = (Raise e, st') /\
      after st [EvMakedirs (os_path_join (base_dir d) (name (cls d)))] st') /\
  tokenize d None st = (Raise e, st).
Proof.
  intros Hu e. split.
  - destruct (makedirs_run (os_path_join (base_dir d) (name (cls d))) st)
      as (st' & R & A).
    exists st'. split; [| exact A].
    unfold download, bind. rewrite R, Hu. reflexivity.
  - unfold tokenize, bind. rewrite Hu. reflexivity.
Qed.

Lemma no_sources_raise_type_error_witness :
  (exists st',
      download custom_at (mkState (os := os_ok) fresh_disk []) =
        (Raise (TypeError "'NoneType' object is not iterable"), st') /\
      after (mkState (os := os_ok) fresh_disk []) [EvMakedirs "./data/customdataset"] st') /\
  tokenize custom_at None (mkState (os := os_ok) fresh_disk []) =
    (Raise (TypeError "'NoneType' object is not iterable"),
     mkState (os := os_ok) fresh_disk []).
Proof.
  exact (no_sources_raise_type_error (os := os_ok) custom_at
           (mkState (os := os_ok) fresh_disk []) eq_refl).
Defined.

(* ================================================================== *)
(** ** Dispatch, end to end *)

Section EndToEnd.
Context {os : OS}.

Lemma init_stores (c : DownloaderClass) tokenizer_type merge_file vocab_file root
    force_redownload n dataset_name d :
  __init__ c tokenizer_type merge_file vocab_file (Some root) force_redownload (Some n)
           dataset_name = Ok d ->
  cls d = c /\ base_dir d = root /\
  _force_redownload d = match force_redownload with None => false | Some b => b end.
Proof.
  unfold __init__.
  destruct vocab_file as [v|];
    [| destruct (String.eqb _ "GPT2BPETokenizer");
       [| destruct (String.eqb _ "HFGPT2Tokenizer");
          [| destruct (String.eqb _ "CharLevelTokenizer")]]];
    intros H; inversion H; subst; repeat split; reflexivity.
Qed.

Lemma prepare_standard_run (d : DataDownloader) (us : list string) (st : State) :
  name (cls d) <> "customdataset" ->
  urls (cls d) = Some us ->
  let dir := os_path_join (base_dir d) (name (cls d)) in
  let present := os_path_isdir (st_fs st) (base_dir d ++ "/" ++ name (cls d)) in
  let transform := tokenize_cmd d (joined_inputs d us) in
  exists st',
    if _force_redownload d || negb present then
      (exists rc,
          prepare d st = (Ok tt, st') /\
          after st (EvMakedirs dir :: fetched d us ++ [EvSystem transform rc]) st')
      \/
      (exists us1 u us2 rc,
          us = (us1 ++ u :: us2)%list /\ rc <> 0%Z /\
          prepare d st = (Raise (download_error u), st') /\
          after st (EvMakedirs dir :: fetched d us1 ++ [EvSystem (wget_cmd d u) rc]) st')
    else
      exists rc,
        prepare d st = (Ok tt, st') /\
        after st [EvSystem transform rc] st'.
Proof.
  intros Hn Hu dir present transform.
  rewrite (prepare_standard_unfold d st Hn). fold present.
  destruct (_force_redownload d || negb present).
  - destruct (download_run d us st Hu)
      as (st1 & [[R A] | (us1 & u & us2 & rc & Hs & Hrc & R & A)]).
    + destruct (tokenize_default_run d us st1 Hu) as (st' & R' & A').
      exists st'. left. eexists. split.
      * unfold bind. rewrite R. exact R'.
      * exact (after_trans _ _ _ (EvMakedirs dir :: fetched d us) _ A A').
    + exists st1. right. exists us1, u, us2, rc.
      split; [exact Hs | split; [exact Hrc | split; [| exact A]]].
      unfold bind. now rewrite R.
  - destruct (tokenize_default_run d us st Hu) as (st' & R' & A').
    exists st'. eexists. split; [exact R' | exact A'].
Qed.

End EndToEnd.

(** X8. [prepare_dataset] on a registered standard dataset, end to end.
    After the entry steps (storage root, missing shared tokenizer files)
    the descriptor is built and the presence of the dataset directory is
    tested on the file system these steps leave.  If it is there and no
    refresh is forced, the only further effect is one run of the transform;
    otherwise the dataset directory is created and the sources fetched in
    order, then the transform is run once, unless a fetch fails, which ends
    the call with the download error. *)
Theorem prepare_dataset_standard_run {os : OS} (dataset_name : string)
    (tokenizer_type data_dir vocab_file merge_file : option string)
    (force_redownload : option bool) (num_workers : option Z)
    (c : DownloaderClass) (us : list string) (d : DataDownloader) (st : State) :
  let root :=
    match data_dir with None => environ_get "DATA_DIR" "./data" | Some r => r end in
  let run :=
    prepare_dataset dataset_name tokenizer_type data_dir vocab_file merge_file
      force_redownload num_workers st in
  dict_get DATA_DOWNLOADERS (str_lower (split0 dataset_name)) = Some (Class_ c) ->
  name c <> "customdataset" ->
  urls c = Some us ->
  __init__ c tokenizer_type merge_file vocab_file (Some root) force_redownload
    (Some 1%Z)
    (if String.eqb (split0 dataset_name) "customdataset"
     then Some dataset_name else None) = Ok d ->
  exists st' ev_v ev_m,
    let entry := (EvMakedirs root :: ev_v ++ ev_m)%list in
    let present :=
      os_path_isdir (replay (st_fs st) entry) (root ++ "/" ++ name c) in
    let force := match force_redownload with None => false | Some b => b end in
    let dir := os_path_join root (name c) in
    let transform := tokenize_cmd d (joined_inputs d us) in
    shared_asset_fetches tokenizer_type root (os_makedirs (st_fs st) root) ev_v ev_m /\
    if force || negb present then
      (exists rc,
          run = (Ok tt, st') /\
          after st (entry ++ EvMakedirs dir :: fetched d us ++ [EvSystem transform rc]) st')
      \/
      (exists us1 u us2 rc,
          us = (us1 ++ u :: us2)%list /\ rc <> 0%Z /\
          run = (Raise (download_error u), st') /\
          after st (entry ++ EvMakedirs dir :: fetched d us1
                    ++ [EvSystem (wget_cmd d u) rc]) st')
    else
      exists rc,
        run = (Ok tt, st') /\
        after st (entry ++ [EvSystem transform rc]) st'.
Proof.
  intros root run Hkey Hn Hu Hinit.
  destruct (init_stores _ _ _ _ _ _ _ _ _ Hinit) as (Hc & Hb & Hf).
  destruct (entry_run tokenizer_type root st) as (st1 & ev_v & ev_m & R & A & S).
  assert (Hrun : run = prepare d st1).
  { unfold run. rewrite prepare_dataset_unfold. fold root. rewrite Hkey.
    unfold bind at 1. rewrite R. unfold bind, lift. now rewrite Hinit. }
  subst c.
  destruct (prepare_standard_run d us st1 Hn Hu) as (st' & H).
  exists st', ev_v, ev_m. cbv zeta. split; [exact S|].
  rewrite Hrun. rewrite Hb, Hf in H.
  replace (st_fs st1) with (replay (st_fs st) (EvMakedirs root :: ev_v ++ ev_m)) in H
    by (symmetry; apply A).
  destruct (_ || _).
  - destruct H as [(rc & Hr & Ha) | (us1 & u & us2 & rc & Hs & Hrc & Hr & Ha)].
    + left. exists rc. split; [exact Hr|]. exact (after_trans _ _ _ _ _ A Ha).
    + right. exists us1, u, us2, rc.
      split; [exact Hs | split; [exact Hrc | split; [exact Hr|]]].
      exact (after_trans _ _ _ _ _ A Ha).
  - destruct H as (rc & Hr & Ha). exists rc. split; [exact Hr|].
    exact (after_trans _ _ _ _ _ A Ha).
Qed.

(** [prepare_dataset("Enron/v1", num_workers=8)] on an empty disk. *)
Lemma prepare_dataset_standard_run_witness :
  let st := mkState (os := os_ok) fresh_disk [] in
  let d := enron_at false in
  let us := ["http://eaidata.bmk.sh/data/enron_emails.jsonl.zst"] in
  let run := prepare_dataset "Enron/v1" None None None None None (Some 8%Z) st in
  exists st' ev_v ev_m,
    let entry := (EvMakedirs "./data" :: ev_v ++ ev_m)%list in
    let present :=
      @os_path_isdir os_ok (replay (st_fs st) entry) ("./data" ++ "/" ++ name Enron) in
    let transform := tokenize_cmd d (joined_inputs d us) in
    shared_asset_fetches (os := os_ok) None "./data"
      (@os_makedirs os_ok (st_fs st) "./data") ev_v ev_m /\
    if false || negb present then
      (exists rc,
          run = (Ok tt, st') /\
          after st (entry ++ EvMakedirs (os_path_join "./data" (name Enron))
                      :: fetched d us ++ [EvSystem transform rc]) st')
      \/
      (exists us1 u us2 rc,
          us = (us1 ++ u :: us2)%list /\ rc <> 0%Z /\
          run = (Raise (download_error u), st') /\
          after st (entry ++ EvMakedirs (os_path_join "./data" (name Enron))
                      :: fetched d us1 ++ [EvSystem (wget_cmd d u) rc]) st')
    else
      exists rc,
        run = (Ok tt, st') /\
        after st (entry ++ [EvSystem transform rc]) st'.
Proof.
  intros st d us run.
  apply (prepare_dataset_standard_run (os := os_ok) "Enron/v1" None None None None None
           (Some 8%Z) Enron us d st).
  - reflexivity.
  - intros H. vm_compute in H. discriminate H.
  - reflexivity.
  - reflexivity.
Defined.

(** X9. A tokenizer type outside the three known ones, with no vocabulary
    file, makes [prepare_dataset] on a registered dataset fail with the
    assertion error of the constructor; by then the storage root has been
    created, and nothing else has happened: no tokenizer file, no dataset
    directory, no fetch, no transform. *)
Theorem prepare_dataset_unknown_tokenizer {os : OS} (dataset_name t : string)
    (data_dir merge_file : option string)
    (force_redownload : option bool) (num_workers : option Z)
    (c : DownloaderClass) (st : State) :
  dict_get DATA_DOWNLOADERS (str_lower (split0 dataset_name)) = Some (Class_ c) ->
  t <> "GPT2BPETokenizer" -> t <> "HFGPT2Tokenizer" -> t <> "CharLevelTokenizer" ->
  let root :=
    match data_dir with None => environ_get "DATA_DIR" "./data" | Some r => r end in
  exists st',
    prepare_dataset dataset_name (Some t) data_dir None merge_file
      force_redownload num_workers st =
      (Raise (AssertionError "No vocab file provided"), st') /\
    after st [EvMakedirs root] st'.
Proof.
  intros Hkey H1 H2 H3 root.
  destruct (makedirs_run root st) as (st' & R & A).
  exists st'. split; [| exact A].
  rewrite prepare_dataset_unfold. fold root. rewrite Hkey.
  apply String.eqb_neq in H1, H2, H3.
  unfold maybe_download_gpt2_tokenizer_data, wants_gpt2_files. rewrite H1.
  unfold bind, ret, lift, __init__. rewrite R, H1, H2, H3. reflexivity.
Qed.

Lemma prepare_dataset_unknown_tokenizer_witness :
  exists st',
    prepare_dataset "github" (Some "SPMTokenizer") (Some "/srv") None None None None
      (mkState (os := os_ok) fresh_disk []) =
      (Raise (AssertionError "No vocab file provided"), st') /\
    after (mkState (os := os_ok) fresh_disk []) [EvMakedirs "/srv"] st'.
Proof.
  apply (prepare_dataset_unknown_tokenizer (os := os_ok) "github" "SPMTokenizer"
           (Some "/srv") None None None Github);
    [reflexivity | discriminate | discriminate | discriminate].
Defined.

Section Spelling.
Context {os : OS}.

Lemma bind_ext {A B} (m : M A) (k1 k2 : A -> M B) (st : State) :
  (forall a st', k1 a st' = k2 a st') -> bind m k1 st = bind m k2 st.
Proof.
  intros H. unfold bind. destruct (m st) as [[a|e] st']; [apply H | reflexivity].
Qed.

Lemma prepare_after_init_ignores_name (c : DownloaderClass)
    tokenizer_type merge_file vocab_file data_dir force_redownload num_workers
    (name1 name2 : option string) (st : State) :
  (d <- lift (__init__ c tokenizer_type merge_file vocab_file data_dir
                force_redownload num_workers name1) ;; prepare d) st =
  (d <- lift (__init__ c tokenizer_type merge_file vocab_file data_dir
                force_redownload num_workers name2) ;; prepare d) st.
Proof.
  unfold __init__.
  destruct vocab_file as [v|];
    [| destruct (String.eqb _ "GPT2BPETokenizer");
       [| destruct (String.eqb _ "HFGPT2Tokenizer");
          [| destruct (String.eqb _ "CharLevelTokenizer")]]];
    reflexivity.
Qed.

End Spelling.

(** X10. Two dataset names with the same registered key (they may differ
    in letter case and in what follows the first separator) are prepared
    identically: same result, same effects, same final state. *)
Theorem prepare_dataset_ignores_spelling {os : OS} (name1 name2 : string)
    (tokenizer_type data_dir vocab_file merge_file : option string)
    (force_redownload : option bool) (num_workers : option Z)
    (e : Entry) (st : State) :
  str_lower (split0 name1) = str_lower (split0 name2) ->
  dict_get DATA_DOWNLOADERS (str_lower (split0 name1)) = Some e ->
  prepare_dataset name1 tokenizer_type data_dir vocab_file merge_file
    force_redownload num_workers st =
  prepare_dataset name2 tokenizer_type data_dir vocab_file merge_file
    force_redownload num_workers st.
Proof.
  intros Hsame Hkey.
  rewrite !prepare_dataset_unfold. rewrite <- Hsame, Hkey.
  apply bind_ext. intros _ st1.
  destruct e as [|c]; [reflexivity|].
  apply prepare_after_init_ignores_name.
Qed.

Lemma prepare_dataset_ignores_spelling_witness :
  prepare_dataset "CustomDataset/run-7" None None None None None None
    (mkState (os := os_ok) loose_disk []) =
  prepare_dataset "customdataset" None None None None None None
    (mkState (os := os_ok) loose_disk []).
Proof.
  apply (prepare_dataset_ignores_spelling (os := os_ok) "CustomDataset/run-7"
           "customdataset" None None None None None None (Class_ CustomDataset));
    reflexivity.
Defined.

(* ================================================================== *)
(** ** The constructor and the shared tokenizer files *)

(** X11. With the character-level tokenizer and no vocabulary file, the
    descriptor has no vocabulary and the transform command line carries the
    text [None] in its place. *)
Theorem char_level_transform_gets_none {os : OS} (c : DownloaderClass)
    (merge_file data_dir : option string) (force_redownload : option bool)
    (num_workers dataset_name : option _) (d : DataDownloader) (input : string) :
  __init__ c (Some "CharLevelTokenizer") merge_file None data_dir force_redownload
           num_workers dataset_name = Ok d ->
  vocab_file d = None /\
  contains (tokenize_cmd d input) "--vocab None " = true.
Proof.
  intros H. unfold __init__ in H. cbn in H. injection H as <-.
  split; [reflexivity|].
  unfold tokenize_cmd. cbv zeta. cbn [vocab_file _vocab_file str_opt].
  destruct (num_docs _), (ftfy _);
    [do 2 apply contains_app_r | apply contains_app_r
     | apply contains_app_r | idtac];
    do 9 apply contains_app_l; reflexivity.
Qed.

Lemma char_level_transform_gets_none_witness :
  exists d,
    __init__ (os := os_ok) Github (Some "CharLevelTokenizer") None None None None
             (Some 1%Z) None = Ok d /\
    vocab_file d = None /\
    contains (tokenize_cmd d "./data/github/github_small.jsonl.zst") "--vocab None " = true.
Proof.
  eexists. split; [reflexivity|].
  apply (char_level_transform_gets_none (os := os_ok) Github None None None
           (Some 1%Z) None).
  reflexivity.
Defined.

(** X12. What [__init__] stores.  The construction fails in one case only:
    no vocabulary file and a tokenizer type that is given and is none of
    the three known ones.  Otherwise every given argument is stored as it
    is, and the missing ones are resolved: the tokenizer to the byte-pair
    one, the storage root to [$DATA_DIR] or [./data], the merge file to
    [<root>/gpt2-merges.txt] whatever the tokenizer, the refresh flag to
    false, the worker count to the number of processors. *)
Theorem init_stores_or_resolves {os : OS} (c : DownloaderClass)
    (tokenizer merge vocab dir : option string)
    (force : option bool) (workers : option Z) (sub_name : option string) :
  let root :=
    match dir with None => environ_get "DATA_DIR" "./data" | Some r => r end in
  match __init__ c tokenizer merge vocab dir force workers sub_name with
  | Ok d =>
      cls d = c /\
      tokenizer_type d =
        match tokenizer with None => "GPT2BPETokenizer" | Some t => t end /\
      base_dir d = root /\
      merge_file d =
        match merge with None => root ++ "/gpt2-merges.txt" | Some m => m end /\
      _force_redownload d = match force with None => false | Some b => b end /\
      num_workers d = match workers with None => cpu_count | Some n => n end /\
      dataset_name d = sub_name /\
      (forall v, vocab = Some v -> vocab_file d = Some v)
  | Raise e =>
      e = AssertionError "No vocab file provided" /\
      vocab = None /\
      exists t, tokenizer = Some t /\ t <> "GPT2BPETokenizer" /\
                t <> "HFGPT2Tokenizer" /\ t <> "CharLevelTokenizer"
  end.
Proof.
  intros root. unfold __init__. fold root.
  destruct vocab as [v|].
  - repeat split. intros v' Hv. exact Hv.
  - destruct tokenizer as [t|].
    + destruct (String.eqb_spec t "GPT2BPETokenizer") as [E1|N1];
        [repeat split; discriminate|].
      destruct (String.eqb_spec t "HFGPT2Tokenizer") as [E2|N2];
        [repeat split; discriminate|].
      destruct (String.eqb_spec t "CharLevelTokenizer") as [E3|N3];
        [repeat split; discriminate|].
      split; [reflexivity | split; [reflexivity|]].
      exists t. repeat split; assumption.
    + repeat split; discriminate.
Qed.

(** X13. [maybe_download_gpt2_tokenizer_data] never raises.  For the
    byte-pair tokenizer (or none given) it fetches the vocabulary exactly
    when its file is absent, and then the merge table exactly when its file
    is absent at that point, whatever the status of the first fetch; for
    any other tokenizer it does nothing. *)
Theorem shared_tokenizer_files_run {os : OS} (tokenizer : option string)
    (root : string) (st : State) :
  exists st' ev_v ev_m,
    maybe_download_gpt2_tokenizer_data tokenizer root st = (Ok tt, st') /\
    after st (ev_v ++ ev_m) st' /\
    shared_asset_fetches tokenizer root (st_fs st) ev_v ev_m.
Proof. exact (maybe_download_run tokenizer root st). Qed.

(** The network is down and both files are missing: both fetches are
    tried, both fail, and the call returns normally. *)
Example shared_tokenizer_files_offline :
  outcome (os := os_offline) (maybe_download_gpt2_tokenizer_data None "./data")
    fresh_disk = Ok tt /\
  events (os := os_offline) (maybe_download_gpt2_tokenizer_data None "./data")
    fresh_disk =
    [EvSystem (vocab_wget "./data") 256; EvSystem (merge_wget "./data") 256].
Proof. split; vm_compute; reflexivity. Qed.
